(** * A shallow embedding of the scraping, polling and message-generation
    pipeline of the LinkedIn profile analyzer ([src/app.py]).

    Conventions of the model.
    - Python [str] values are [String.string] (ASCII text; [len] counts
      characters).
    - Parsed JSON values are the inductive [json]; numbers are integers
      ([Z]) and objects are association lists with distinct keys, in the
      order [json.loads] builds them.
    - [time.time()] is an integer number of seconds.
    - A network call is answered by the environment with a [reply]: either
      the call raises ([Raised], with a flag telling a timeout apart), or
      it returns an HTTP status code and a body that [response.json()]
      parses ([Some v]) or fails to parse ([None]).
    - A Python exception is [None] in the [option] results of the helper
      functions below ([py A := option A]). *)

From Stdlib Require Import String Ascii List ZArith Bool Lia Permutation.
Import ListNotations.
Open Scope string_scope.

(* ================================================================== *)
(** ** Python string methods *)
(* ================================================================== *)

Module PyStr.

(** Characters for which [str.isspace()] holds (ASCII part). *)
Definition is_space (c : ascii) : bool :=
  let n := nat_of_ascii c in
  Nat.eqb n 32 || (Nat.leb 9 n && Nat.leb n 13) || (Nat.leb 28 n && Nat.leb n 31).

(** [str.lower()] on ASCII text. *)
Definition lower_char (c : ascii) : ascii :=
  let n := nat_of_ascii c in
  if Nat.leb 65 n && Nat.leb n 90 then ascii_of_nat (n + 32) else c.

Fixpoint lower (s : string) : string :=
  match s with
  | EmptyString => EmptyString
  | String c s' => String (lower_char c) (lower s')
  end.

(** [str.lstrip(chars)] where the stripped set is given by a predicate. *)
Fixpoint lstrip_by (p : ascii -> bool) (s : string) : string :=
  match s with
  | EmptyString => EmptyString
  | String c s' => if p c then lstrip_by p s' else s
  end.

Fixpoint rev_str (s : string) : string :=
  match s with
  | EmptyString => EmptyString
  | String c s' => rev_str s' ++ String c EmptyString
  end.

Definition rstrip_by (p : ascii -> bool) (s : string) : string :=
  rev_str (lstrip_by p (rev_str s)).

(** [s.strip()], [s.rstrip()] and [s.rstrip('.')]. *)
Definition strip (s : string) : string := rstrip_by is_space (lstrip_by is_space s).
Definition rstrip (s : string) : string := rstrip_by is_space s.
Definition rstrip_dots (s : string) : string :=
  rstrip_by (fun c => Ascii.eqb c "."%char) s.

(** [s.startswith(p)], [s.endswith(p)] and [p in s]. *)
Definition startswith (s p : string) : bool := String.prefix p s.
Definition endswith (s p : string) : bool := String.prefix (rev_str p) (rev_str s).

Fixpoint contains (p s : string) : bool :=
  String.prefix p s ||
  match s with
  | EmptyString => false
  | String _ s' => contains p s'
  end.

(** [s[:n]] for [n >= 0]. *)
Definition take (n : nat) (s : string) : string := substring 0 n s.

(** [s.split(sep)] for a non-empty separator: the pieces between the
    non-overlapping occurrences of [sep], scanned from the left. The
    argument [cur] accumulates the current piece. *)
Fixpoint split_aux (sep : string) (fuel : nat) (s cur : string) : list string :=
  match fuel with
  | O => [cur ++ s]
  | S fuel' =>
    if String.prefix sep s then
      cur :: split_aux sep fuel' (substring (String.length sep)
                                   (String.length s) s) EmptyString
    else match s with
         | EmptyString => [cur]
         | String c s' => split_aux sep fuel' s' (cur ++ String c EmptyString)
         end
  end.

Definition split (sep : string) (s : string) : list string :=
  split_aux sep (S (String.length s)) s EmptyString.

(** [s.split()] without argument: the maximal runs of non-space
    characters. *)
Fixpoint split_ws_aux (s cur : string) : list string :=
  match s with
  | EmptyString => match cur with EmptyString => [] | _ => [cur] end
  | String c s' =>
    if is_space c then
      match cur with
      | EmptyString => split_ws_aux s' EmptyString
      | _ => cur :: split_ws_aux s' EmptyString
      end
    else split_ws_aux s' (cur ++ String c EmptyString)
  end.

Definition split_ws (s : string) : list string := split_ws_aux s EmptyString.

(** [sep.join(l)]. *)
Fixpoint join (sep : string) (l : list string) : string :=
  match l with
  | [] => EmptyString
  | [x] => x
  | x :: l' => x ++ sep ++ join sep l'
  end.

(** [s.replace(old, new)] for a non-empty [old]. *)
Definition replace (old new s : string) : string := join new (split old s).

(** Decimal rendering of an integer, as [str(n)]. *)
Fixpoint digits_aux (fuel : nat) (n : N) (acc : string) : string :=
  match fuel with
  | O => acc
  | S fuel' =>
    let d := ascii_of_N (48 + N.modulo n 10) in
    let q := N.div n 10 in
    match q with
    | N0 => String d acc
    | _ => digits_aux fuel' q (String d acc)
    end
  end.

Definition str_of_N (n : N) : string := digits_aux (N.to_nat (N.log2 n) + 1) n EmptyString.

Definition str_of_Z (z : Z) : string :=
  match z with
  | Z0 => "0"
  | Zpos p => str_of_N (Npos p)
  | Zneg p => "-" ++ str_of_N (Npos p)
  end.

End PyStr.

(* ================================================================== *)
(** ** JSON values and the Python operations the code applies to them *)
(* ================================================================== *)

#[local] Set Warnings "-register-all".

Inductive json : Type :=
| JNull
| JBool (b : bool)
| JNum (z : Z)
| JStr (s : string)
| JArr (items : list json)
| JObj (fields : list (string * json)).

(** A Python computation that may raise: [None] is a raised exception. *)
Definition py (A : Type) : Type := option A.

(** Sequencing: an exception propagates. *)
Definition py_bind {A B} (m : py A) (k : A -> py B) : py B :=
  match m with Some a => k a | None => None end.

Fixpoint assoc (k : string) (kv : list (string * json)) : option json :=
  match kv with
  | [] => None
  | (k', v) :: kv' => if String.eqb k k' then Some v else assoc k kv'
  end.

(** [d.get(k, default)]: only a dict has [.get] (AttributeError otherwise). *)
Definition py_get (d : json) (k : string) (default : json) : py json :=
  match d with
  | JObj kv => match assoc k kv with Some v => Some v | None => Some default end
  | _ => None
  end.

(** [d[k]] with a string key: KeyError on a dict without [k], TypeError
    on anything that is not a dict. *)
Definition subscript_key (d : json) (k : string) : py json :=
  match d with
  | JObj kv => assoc k kv
  | _ => None
  end.

(** [v[i]] with an integer index [i >= 0]. *)
Definition subscript_idx (v : json) (i : nat) : py json :=
  match v with
  | JArr l => nth_error l i
  | JStr s => match String.get i s with
              | Some c => Some (JStr (String c EmptyString))
              | None => None
              end
  | _ => None
  end.

(** Python truthiness of a JSON value. *)
Definition truthy (v : json) : bool :=
  match v with
  | JNull => false
  | JBool b => b
  | JNum z => negb (Z.eqb z 0)
  | JStr s => negb (String.eqb s "")
  | JArr l => negb (Nat.eqb (List.length l) 0)
  | JObj kv => negb (Nat.eqb (List.length kv) 0)
  end.

(** [v[:n]]: strings and lists slice, anything else raises TypeError. *)
Definition py_slice (n : nat) (v : json) : py json :=
  match v with
  | JStr s => Some (JStr (PyStr.take n s))
  | JArr l => Some (JArr (firstn n l))
  | _ => None
  end.

(** [v == "s"] for a JSON value and a string literal. *)
Definition is_str (v : json) (s : string) : bool :=
  match v with
  | JStr t => String.eqb t s
  | _ => false
  end.

(* ================================================================== *)
(** ** Network replies *)
(* ================================================================== *)

(** The outcome of one [requests.get] / [requests.post]: the call raises
    ([Raised true] for [requests.exceptions.Timeout], [Raised false] for
    any other exception), or a response arrives with its status code and
    its body as [response.json()] sees it. *)
Inductive reply : Type :=
| Raised (timeout : bool)
| Reply (code : Z) (body : option json).

(* ================================================================== *)
(** ** Job Submitter: [start_apify_run] (app.py lines 17-46) *)
(* ================================================================== *)

(** The dict [{"run_id": ..., "dataset_id": ..., "status": "RUNNING"}]. *)
Record run_info : Type := {
  run_id : json;
  dataset_id : json;
  run_status : string
}.

(** [start_apify_run(username, api_key)]: the username and the key only
    enter the request, so the function is modelled on the reply of its one
    POST. Every exception inside the [try] (network error, unparsable body,
    missing key) lands in [except Exception] and yields [None]. *)
Definition start_apify_run (response : reply) : option run_info :=
  match response with
  | Raised _ => None
  | Reply code body =>
    if Z.eqb code 201 then
      match body with
      | None => None
      | Some run_data =>
        match subscript_key run_data "data" with
        | None => None
        | Some d =>
          match subscript_key d "id" with
          | None => None
          | Some rid =>
            match subscript_key d "defaultDatasetId" with
            | None => None
            | Some dsid =>
              Some {| run_id := rid; dataset_id := dsid; run_status := "RUNNING" |}
            end
          end
        end
      end
    else None
  end.

(* ================================================================== *)
(** ** Job Poller and Result Fetcher: [poll_apify_run_with_status]
       (app.py lines 196-251) *)
(* ================================================================== *)

Module Poller.

(** The side effects of the poller that the claims observe. *)
Inductive call : Type :=
| StatusGet                (* GET .../actor-runs/{run_id} *)
| DatasetGet               (* GET .../datasets/{dataset_id}/items *)
| Sleep (secs : Z).        (* time.sleep(secs) *)

(** The environment answers the status endpoint and the dataset endpoint
    from two queues of replies (a call past the end of a queue raises a
    network error); [calls] logs every call in order. *)
Record world : Type := {
  status_replies : list reply;
  dataset_replies : list reply;
  calls : list call
}.

Definition M (A : Type) : Type := world -> A * world.

Definition ret {A} (a : A) : M A := fun w => (a, w).
Definition bind {A B} (m : M A) (k : A -> M B) : M B :=
  fun w => let (a, w') := m w in k a w'.

Notation "x <- m ;; k" := (bind m (fun x => k))
  (at level 61, m at next level, right associativity).
Notation "m ;; k" := (bind m (fun _ => k))
  (at level 61, right associativity).

Definition pop (q : list reply) : reply * list reply :=
  match q with
  | [] => (Raised false, [])
  | r :: q' => (r, q')
  end.

Definition get_status : M reply := fun w =>
  let (r, q) := pop (status_replies w) in
  (r, {| status_replies := q; dataset_replies := dataset_replies w;
         calls := calls w ++ [StatusGet] |}).

Definition get_dataset : M reply := fun w =>
  let (r, q) := pop (dataset_replies w) in
  (r, {| status_replies := status_replies w; dataset_replies := q;
         calls := calls w ++ [DatasetGet] |}).

Definition sleep (secs : Z) : M unit := fun w =>
  (tt, {| status_replies := status_replies w; dataset_replies := dataset_replies w;
          calls := calls w ++ [Sleep secs] |}).

(** What the [try] block makes of a status reply before it branches on
    the status: an exception ([requests.get] raising,
    [status_response.json()["data"]] or [status_data.get(...)] raising),
    a status code other than 200, or the value of
    [status_data.get("status", "UNKNOWN")]. *)
Inductive status_view : Type :=
| SRaised
| SNot200
| SStatus (current_status : json).

Definition read_status (r : reply) : status_view :=
  match r with
  | Raised _ => SRaised
  | Reply code body =>
    if Z.eqb code 200 then
      match body with
      | None => SRaised
      | Some b =>
        match subscript_key b "data" with
        | None => SRaised
        | Some status_data =>
          match py_get status_data "status" (JStr "UNKNOWN") with
          | None => SRaised
          | Some cur => SStatus cur
          end
        end
      end
    else SNot200
  end.

(** [current_status in ["FAILED", "TIMED-OUT", "ABORTED"]]. *)
Definition failure_statuses : list string := ["FAILED"; "TIMED-OUT"; "ABORTED"].

Definition is_failure (cur : json) : bool :=
  existsb (is_str cur) failure_statuses.

(** One pass of the [for attempt in range(max_attempts)] body: it either
    returns from the function or goes on to the next attempt. *)
Inductive step_result : Type :=
| Return (v : option json)
| Next.

Definition attempt : M step_result :=
  r <- get_status ;;
  match read_status r with
  | SRaised => sleep 10 ;; ret Next          (* except Exception: sleep *)
  | SNot200 => sleep 10 ;; ret Next          (* else: sleep *)
  | SStatus cur =>
    if is_str cur "SUCCEEDED" then
      d <- get_dataset ;;
      match d with
      | Raised _ => sleep 10 ;; ret Next      (* except Exception: sleep *)
      | Reply code body =>
        if Z.eqb code 200 then
          match body with
          | None => sleep 10 ;; ret Next     (* .json() raised *)
          | Some items =>
            match items with
            | JArr (first :: _) => ret (Return (Some first))
            | JObj _ => ret (Return (Some items))
            | _ => ret Next                  (* no branch taken, no sleep *)
            end
          end
        else ret (Return None)               (* "Failed to fetch dataset" *)
      end
    else if is_failure cur then ret (Return None)
    else if is_str cur "RUNNING" then sleep 10 ;; ret Next
    else ret Next                            (* no branch taken, no sleep *)
  end.

Fixpoint poll_loop (attempts : nat) : M (option json) :=
  match attempts with
  | O => ret None                            (* "Polling timeout" *)
  | S k =>
    s <- attempt ;;
    match s with
    | Return v => ret v
    | Next => poll_loop k
    end
  end.

Definition max_attempts : nat := 60.

(** [poll_apify_run_with_status(run_id, dataset_id, api_key)]: the ids
    and the key only enter the URLs and headers of the requests. The
    progress bar and [st.error] are display only. *)
Definition poll_apify_run_with_status : M (option json) := poll_loop max_attempts.

(** Reading the log. *)
Definition is_status_get (c : call) : bool :=
  match c with StatusGet => true | _ => false end.
Definition is_dataset_get (c : call) : bool :=
  match c with DatasetGet => true | _ => false end.

Definition status_checks (l : list call) : nat := List.length (filter is_status_get l).
Definition dataset_fetches (l : list call) : nat := List.length (filter is_dataset_get l).

Fixpoint slept (l : list call) : Z :=
  match l with
  | [] => 0
  | Sleep s :: l' => s + slept l'
  | _ :: l' => slept l'
  end%Z.

(** A status reply carrying [{"data": {"status": s}}]. *)
Definition status_reply (s : string) : reply :=
  Reply 200 (Some (JObj [("data", JObj [("status", JStr s)])])).

Definition start (sr dr : list reply) : world :=
  {| status_replies := sr; dataset_replies := dr; calls := [] |}.

End Poller.

(* ================================================================== *)
(** ** [str()] of a JSON value, as an f-string renders it *)
(* ================================================================== *)

Module PyRepr.

Definition chr (n : nat) : string := String (ascii_of_nat n) EmptyString.

Definition hex_digit (n : nat) : ascii :=
  ascii_of_nat (if Nat.ltb n 10 then 48 + n else 87 + n).

(** One character of [repr(s)] when [q] is the quote in use. *)
Definition repr_char (q c : ascii) : string :=
  let n := nat_of_ascii c in
  if Ascii.eqb c q || Nat.eqb n 92 then String (ascii_of_nat 92) (String c EmptyString)
  else if Nat.eqb n 9 then chr 92 ++ "t"
  else if Nat.eqb n 10 then chr 92 ++ "n"
  else if Nat.eqb n 13 then chr 92 ++ "r"
  else if Nat.ltb n 32 || Nat.eqb n 127 then
    chr 92 ++ "x" ++ String (hex_digit (n / 16)) (String (hex_digit (n mod 16)) EmptyString)
  else String c EmptyString.

Fixpoint repr_chars (q : ascii) (s : string) : string :=
  match s with
  | EmptyString => EmptyString
  | String c s' => repr_char q c ++ repr_chars q s'
  end.

Definition has_char (n : nat) (s : string) : bool :=
  PyStr.contains (chr n) s.

(** [repr(s)]: double quotes when [s] has a single quote and no double
    quote, single quotes otherwise. *)
Definition repr_str (s : string) : string :=
  let q := if has_char 39 s && negb (has_char 34 s) then ascii_of_nat 34 else ascii_of_nat 39 in
  String q (repr_chars q s ++ String q EmptyString).

Fixpoint repr (v : json) : string :=
  match v with
  | JNull => "None"
  | JBool b => if b then "True" else "False"
  | JNum z => PyStr.str_of_Z z
  | JStr s => repr_str s
  | JArr l => "[" ++ PyStr.join ", " (map repr l) ++ "]"
  | JObj kv =>
    "{" ++ PyStr.join ", " (map (fun '(k, x) => repr_str k ++ ": " ++ repr x) kv) ++ "}"
  end.

(** [str(v)], i.e. what [f"{v}"] inserts. *)
Definition py_str (v : json) : string :=
  match v with
  | JStr s => s
  | _ => repr v
  end.

(** [f"{v or 'default'}"]. *)
Definition or_default (v : json) (default : string) : string :=
  if truthy v then py_str v else default.

End PyRepr.

(* ================================================================== *)
(** ** [filter_recent_relevant_posts] (app.py lines 163-194) *)
(* ================================================================== *)

Module PostFilter.

Definition exclude_keywords : list string :=
  ["hiring"; "job"; "diwali"; "holiday"; "festival"; "birthday"].
Definition include_keywords : list string :=
  ["technology"; "digital"; "growth"; "project"; "strategy"].

(** [any(keyword in post_text for keyword in keywords)]. *)
Definition any_keyword (keywords : list string) (post_text : string) : bool :=
  existsb (fun k => PyStr.contains k post_text) keywords.

(** [post_time < one_month_ago]: numbers (and booleans, which are ints in
    Python) compare; any other value raises TypeError. *)
Definition py_lt (post_time : json) (bound : Z) : py bool :=
  match post_time with
  | JNum z => Some (Z.ltb z bound)
  | JBool b => Some (Z.ltb (if b then 1 else 0) bound)
  | _ => None
  end%Z.

(** The [for post in posts] loop; [None] when an iteration raises. *)
Fixpoint filter_loop (one_month_ago : Z) (posts : list json) : py (list json) :=
  match posts with
  | [] => Some []
  | post :: rest =>
    match post with
    | JObj _ =>
      match py_get post "text" (JStr "") with
      | Some (JStr t) =>
        let post_text := PyStr.lower t in
        match py_get post "timestamp" (JNum 0) with
        | Some post_time =>
          match py_lt post_time one_month_ago with
          | None => None
          | Some true => filter_loop one_month_ago rest      (* old post *)
          | Some false =>
            let has_excluded := any_keyword exclude_keywords post_text in
            let has_included := any_keyword include_keywords post_text in
            if negb has_excluded && has_included then
              match filter_loop one_month_ago rest with
              | Some l => Some (post :: l)
              | None => None
              end
            else filter_loop one_month_ago rest
          end
        | None => None
        end
      | _ => None               (* .lower() on a non-string: AttributeError *)
      end
    | _ => filter_loop one_month_ago rest                    (* not a dict *)
    end
  end.

(** [filter_recent_relevant_posts(posts)] at current time [now]. *)
Definition filter_recent_relevant_posts (now : Z) (posts : list json) : py (list json) :=
  filter_loop (now - 30 * 24 * 60 * 60)%Z posts.

End PostFilter.

(* ================================================================== *)
(** ** [generate_research_brief] (app.py lines 253-312) *)
(* ================================================================== *)

Module Brief.

Definition timeout_text : string :=
  "Research brief generation is taking longer than expected. Profile data is loaded and ready for message generation.".
Definition unavailable_text : string :=
  "Research brief service temporarily unavailable. Profile data loaded successfully.".
Definition status_text (code : Z) : string :=
  "Research brief generation encountered an issue (Status: " ++ PyStr.str_of_Z code ++
  "). The profile data is loaded and ready for message generation.".

(** [response.json()["choices"][0]["message"]["content"]]. *)
Definition completion_content (body : option json) : py json :=
  match body with
  | None => None
  | Some b =>
    match subscript_key b "choices" with
    | None => None
    | Some ch =>
      match subscript_idx ch 0 with
      | None => None
      | Some c0 =>
        match subscript_key c0 "message" with
        | None => None
        | Some m => subscript_key m "content"
        end
      end
    end
  end.

(** [generate_research_brief(profile_data, api_key)] on the reply of its
    one POST. [json.dumps] of a parsed JSON value does not raise, so the
    outer [except Exception] is not reached; the prompt only enters the
    request. The returned value is whatever [content] holds. *)
Definition generate_research_brief (response : reply) : json :=
  match response with
  | Raised true => JStr timeout_text
  | Raised false => JStr unavailable_text
  | Reply code body =>
    if Z.eqb code 200 then
      match completion_content body with
      | Some content => content
      | None => JStr unavailable_text
      end
    else JStr (status_text code)
  end.

End Brief.

(* ================================================================== *)
(** ** [analyze_and_generate_message] (app.py lines 474-863) *)
(* ================================================================== *)

Module Messages.

Definition nl : string := String (ascii_of_nat 10) EmptyString.

(** How a call ends: it returns, it raises, or (for the [while] loop,
    run with a bound on its iterations) it has not left the loop yet. *)
Inductive outcome (A : Type) : Type :=
| Done (a : A)
| Raise
| OutOfFuel.
Arguments Done {A} a.
Arguments Raise {A}.
Arguments OutOfFuel {A}.

(** The three prospect variables that reach the returned messages:
    [prospect_name] (a string), [prospect_role] and [prospect_company]
    (a string or a list, whatever [v[:100]] gives). *)
Record prospect_vars : Type := {
  prospect_name : string;
  prospect_role : json;
  prospect_company : json
}.

Definition init_vars : prospect_vars :=
  {| prospect_name := "there"; prospect_role := JStr ""; prospect_company := JStr "" |}.

(** [fullname.split()[0] if fullname else "there"]. *)
Definition first_word (fullname : json) : py string :=
  if truthy fullname then
    match fullname with
    | JStr s => match PyStr.split_ws s with w :: _ => Some w | [] => None end
    | _ => None
    end
  else Some "there".

(** The name branch of the [try] block: [Some v] is the name after it,
    [None] an exception. *)
Definition name_step (pd : json) (v : prospect_vars) : option prospect_vars :=
  let set n := Some {| prospect_name := n; prospect_role := prospect_role v;
                       prospect_company := prospect_company v |} in
  match py_get pd "fullname" JNull with
  | Some fullname =>
    if truthy fullname then
      match first_word fullname with Some n => set n | None => None end
    else
      match py_get pd "basic_info" JNull with
      | Some bi =>
        if truthy bi then
          match py_get bi "fullname" JNull with
          | Some f =>
            if truthy f then
              match subscript_key pd "basic_info" with
              | Some bi' =>
                match subscript_key bi' "fullname" with
                | Some fullname' =>
                  match first_word fullname' with Some n => set n | None => None end
                | None => None
                end
              | None => None
              end
            else Some v
          | None => None
          end
        else Some v
      | None => None
      end
  | None => None
  end.

(** [if prospect_data.get(key): prospect_data[key][:n]]: only whether it
    raises matters (headline and about feed the prompt alone). *)
Definition slice_step (pd : json) (key : string) (n : nat) : bool :=
  match py_get pd key JNull with
  | Some x => if truthy x then match py_slice n x with Some _ => true | None => false end
              else true
  | None => false
  end.

(** [len(experiences)]: TypeError on numbers and booleans. *)
Definition py_len (v : json) : py nat :=
  match v with
  | JStr s => Some (String.length s)
  | JArr l => Some (List.length l)
  | JObj kv => Some (List.length kv)
  | _ => None
  end.

(** The experience branch: [prospect_role] is assigned before
    [prospect_company] is computed, so it survives an exception there. *)
Definition experience_step (pd : json) (v : prospect_vars) : prospect_vars * bool :=
  match py_get pd "experience" JNull with
  | Some e =>
    if truthy e then
      match py_get pd "experience" (JArr []) with
      | Some experiences =>
        if truthy experiences then
          match py_len experiences with
          | Some len =>
            if Nat.ltb 0 len then
              match subscript_idx experiences 0 with
              | Some current_exp =>
                match py_bind (py_get current_exp "title" (JStr "")) (py_slice 100) with
                | Some role =>
                  let v1 := {| prospect_name := prospect_name v; prospect_role := role;
                               prospect_company := prospect_company v |} in
                  match py_bind (py_get current_exp "company" (JStr "")) (py_slice 100) with
                  | Some comp =>
                    ({| prospect_name := prospect_name v; prospect_role := role;
                        prospect_company := comp |}, true)
                  | None => (v1, false)
                  end
                | None => (v, false)
                end
              | None => (v, false)
              end
            else (v, true)
          | None => (v, false)
          end
        else (v, true)
      | None => (v, false)
      end
    else (v, true)
  | None => (v, false)
  end.

(** The [try: ... except Exception: pass] block that reads
    [prospect_data]. The posts part comes last and only feeds the prompt,
    so an exception in it changes nothing here. *)
Definition extract_prospect (pd : json) : prospect_vars :=
  match pd with
  | JObj _ =>
    match name_step pd init_vars with
    | None => init_vars
    | Some v1 =>
      if slice_step pd "headline" 200 then fst (experience_step pd v1) else v1
    end
  | _ => init_vars
  end.

(** The sender variables, computed outside any [try]: an exception here
    leaves the function. [sender_role], [sender_company] and
    [sender_expertise] only feed the prompt, but their slicing can raise. *)
Definition sender_first_name (si : json) : py string :=
  match py_get si "name" (JStr "Professional Contact") with
  | Some sender_name =>
    match (if truthy sender_name then
             match sender_name with
             | JStr s => match PyStr.split_ws s with w :: _ => Some w | [] => None end
             | _ => None
             end
           else Some "Professional") with
    | Some sfn =>
      match py_bind (py_get si "current_role" (JStr "")) (py_slice 150),
            py_bind (py_get si "current_company" (JStr "")) (py_slice 100),
            py_bind (py_get si "expertise" (JStr "")) (py_slice 200) with
      | Some _, Some _, Some _ => Some sfn
      | _, _, _ => None
      end
    | None => None
    end
  | None => None
  end.

(** *** Parsing the completion into options (the [for line in lines] loop) *)

Record parse_state : Type := {
  current_option : option nat;
  current_message : list string;
  messages : list string
}.

Definition digit (k : nat) : string := PyStr.str_of_N (N.of_nat k).

(** [line.lower().startswith('option k:') or ...startswith('optionk:')]
    for k = 1, 2, 3, tried in that order. *)
Definition header_kind (ll : string) : option nat :=
  let is_header k := PyStr.startswith ll ("option " ++ digit k ++ ":") ||
                     PyStr.startswith ll ("option" ++ digit k ++ ":") in
  if is_header 1 then Some 1
  else if is_header 2 then Some 2
  else if is_header 3 then Some 3
  else None.

(** [line.replace('Option k:', '').replace('optionk:', '').strip()]. *)
Definition strip_header (k : nat) (line : string) : string :=
  PyStr.strip (PyStr.replace ("option" ++ digit k ++ ":") ""
                 (PyStr.replace ("Option " ++ digit k ++ ":") "" line)).

Definition flush (st : parse_state) : list string :=
  match current_option st, current_message st with
  | Some _, _ :: _ => app (messages st) [PyStr.join nl (current_message st)]
  | _, _ => messages st
  end.

Definition parse_line (st : parse_state) (raw : string) : parse_state :=
  let line := PyStr.strip raw in
  let ll := PyStr.lower line in
  match header_kind ll with
  | Some k =>
    {| current_option := Some k; current_message := [strip_header k line];
       messages := flush st |}
  | None =>
    match current_option st with
    | Some _ =>
      if negb (String.eqb line "") && negb (PyStr.startswith ll "option") then
        {| current_option := current_option st;
           current_message := app (current_message st) [line];
           messages := messages st |}
      else st
    | None => st
    end
  end.

(** [messages] after the loop and the final [if current_message:]. *)
Definition parse_options (content : string) : list string :=
  let st := fold_left parse_line (PyStr.split nl content)
                      {| current_option := None; current_message := []; messages := [] |} in
  match current_message st with
  | [] => messages st
  | _ => app (messages st) [PyStr.join nl (current_message st)]
  end.

(** *** Cleaning and validating one option *)

Definition in_range (m : string) : bool :=
  Nat.leb 250 (String.length m) && Nat.leb (String.length m) 300.

Fixpoint set_nth (i : nat) (f : string -> string) (l : list string) : list string :=
  match l, i with
  | [], _ => []
  | x :: l', O => f x :: l'
  | x :: l', S i' => x :: set_nth i' f l'
  end.

(** [for i in range(1, len(lines_msg) - 1)]: every line but the first and
    the last. *)
Fixpoint map_but_last (f : string -> string) (l : list string) : list string :=
  match l with
  | [] => []
  | [x] => [x]
  | x :: l' => f x :: map_but_last f l'
  end.

Definition map_middle (f : string -> string) (l : list string) : list string :=
  match l with
  | [] => []
  | x :: l' => x :: map_but_last f l'
  end.

Definition shorten_line (line : string) : string :=
  if Nat.ltb 100 (String.length line) then
    if PyStr.contains "." line then
      let sentences := PyStr.split "." line in
      if Nat.ltb 1 (List.length sentences) then PyStr.strip (hd "" sentences) ++ "."
      else PyStr.take 95 line ++ "..."
    else PyStr.take 95 line ++ "..."
  else line.

(** The [elif msg_length > 300] branch. *)
Definition shorten (msg : string) : string :=
  let m1 := PyStr.rstrip msg in
  let m2 := if PyStr.contains "..." m1 then PyStr.strip (hd "" (PyStr.split "..." m1)) else m1 in
  let lines_msg := PyStr.split nl m2 in
  if Nat.leb 4 (List.length lines_msg) then PyStr.join nl (map_middle shorten_line lines_msg)
  else m2.

(** The [if msg_length < 250] branch. *)
Definition lengthen (msg : string) : string :=
  let lines_msg := PyStr.split nl msg in
  if Nat.leb 3 (List.length lines_msg) then
    PyStr.join nl (set_nth 2 (fun l => l ++ " I focus on similar business transformations.") lines_msg)
  else msg.

Definition option_fallback (v : prospect_vars) (sfn : string) : string :=
  "Hi " ++ prospect_name v ++ "," ++ nl ++
  "Your work at " ++ PyRepr.or_default (prospect_company v) "your company" ++
  " shows professional depth in " ++ PyRepr.or_default (prospect_role v) "your field" ++ "." ++ nl ++
  "As someone focused on similar business improvements, thought it'd be great to connect." ++ nl ++
  "Best," ++ nl ++ sfn.

(** One pass of [for msg in messages]: what it appends to
    [validated_messages] (nothing or one string). *)
Definition validate (v : prospect_vars) (sfn : string) (msg0 : string) : list string :=
  if String.eqb msg0 "" then [] else
  let name := prospect_name v in
  let msg1 := if PyStr.startswith (PyStr.lower msg0) ("hi " ++ PyStr.lower name ++ ",") then msg0
              else "Hi " ++ name ++ "," ++ nl ++ msg0 in
  let signature := "Best," ++ nl ++ sfn in
  let msg2 := if PyStr.endswith (PyStr.strip msg1) signature then msg1
              else
                let m := PyStr.rstrip msg1 in
                let m' := if existsb (PyStr.endswith m) ["..."; ".."; "."] then PyStr.rstrip_dots m else m in
                m' ++ nl ++ signature in
  let msg3 := if Nat.ltb (String.length msg2) 250 then lengthen msg2
              else if Nat.ltb 300 (String.length msg2) then shorten msg2
              else msg2 in
  if in_range msg3 then [msg3]
  else let fallback := option_fallback v sfn in
       if in_range fallback then [fallback] else [].

(** *** Topping up to three messages (the [while] loop) *)

Definition topup_templates (v : prospect_vars) (sfn : string) : list string :=
  let n := prospect_name v in
  [ "Hi " ++ n ++ "," ++ nl ++ "Your role in " ++ PyRepr.or_default (prospect_role v) "your field" ++
    " demonstrates expertise in professional growth." ++ nl ++
    "I focus on similar advancements in business technology - would be great to connect." ++ nl ++
    "Best," ++ nl ++ sfn;
    "Hi " ++ n ++ "," ++ nl ++ "Your experience at " ++
    PyRepr.or_default (prospect_company v) "your organization" ++
    " aligns with evolving business landscapes." ++ nl ++
    "Working on similar transformations makes me think we should connect." ++ nl ++
    "Best," ++ nl ++ sfn;
    "Hi " ++ n ++ "," ++ nl ++ "Your professional journey shows commitment to excellence in " ++
    PyRepr.or_default (prospect_role v) "your domain" ++ "." ++ nl ++
    "Given our shared focus on business improvement, let's connect." ++ nl ++
    "Best," ++ nl ++ sfn ].

(** One iteration of the [while] body: the inner [for template in
    fallback_template] loop. *)
Definition topup_body (templates vm : list string) : list string :=
  fold_left (fun acc t => if Nat.ltb (List.length acc) 3 && in_range t then app acc [t] else acc)
            templates vm.

(** [while len(validated_messages) < 3: ...], run for at most [fuel]
    iterations; [OutOfFuel] when the loop is still running after them. *)
Fixpoint topup (fuel : nat) (templates vm : list string) : outcome (list string) :=
  if Nat.ltb (List.length vm) 3 then
    match fuel with
    | O => OutOfFuel
    | S fuel' => topup fuel' templates (topup_body templates vm)
    end
  else Done vm.

(** *** The fallback lists of the two failure branches *)

(** [else:] branch (status code other than 200). *)
Definition error_fallbacks (v : prospect_vars) (sfn : string) : list string :=
  let n := prospect_name v in
  [ "Hi " ++ n ++ "," ++ nl ++ "Your professional background in " ++
    PyRepr.or_default (prospect_role v) "your field" ++ " demonstrates expertise." ++ nl ++
    "I work on similar business transformations and thought it'd be great to connect." ++ nl ++
    "Best," ++ nl ++ sfn;
    "Hi " ++ n ++ "," ++ nl ++ "Your experience at " ++
    PyRepr.or_default (prospect_company v) "your organization" ++ " shows commitment to growth." ++ nl ++
    "Focusing on similar improvements makes me think we should connect." ++ nl ++
    "Best," ++ nl ++ sfn;
    "Hi " ++ n ++ "," ++ nl ++ "Your work in " ++
    PyRepr.or_default (prospect_role v) "your domain" ++ " aligns with business evolution." ++ nl ++
    "Given our shared professional interests, let's connect and exchange perspectives." ++ nl ++
    "Best," ++ nl ++ sfn ].

(** [for i, msg in enumerate(fallback_messages)]: the length fix-up. *)
Definition adjust_error (msg : string) : string :=
  if Nat.ltb 300 (String.length msg) then PyStr.take 297 msg ++ "..."
  else if Nat.ltb (String.length msg) 250 then
    msg ++ " I focus on driving meaningful change in similar environments."
  else msg.

(** [except Exception] branch. *)
Definition exception_templates (v : prospect_vars) (sfn : string) : list string :=
  let n := prospect_name v in
  [ "Hi " ++ n ++ "," ++ nl ++ "Your professional journey shows dedication to excellence in your field." ++ nl ++
    "Working on similar business transformations makes me think we should connect." ++ nl ++
    "Best," ++ nl ++ sfn;
    "Hi " ++ n ++ "," ++ nl ++ "Your experience demonstrates expertise in professional growth and development." ++ nl ++
    "Given our shared focus on business improvement, would be great to connect." ++ nl ++
    "Best," ++ nl ++ sfn;
    "Hi " ++ n ++ "," ++ nl ++ "Your background aligns with evolving business landscapes and opportunities." ++ nl ++
    "Focusing on similar advancements, let's connect and exchange perspectives." ++ nl ++
    "Best," ++ nl ++ sfn ].

Definition adjust_exception (t : string) : string :=
  if in_range t then t
  else if Nat.ltb 300 (String.length t) then PyStr.take 297 t ++ "..."
  else t ++ " Our shared professional interests make this connection valuable.".

Definition exception_fallbacks (v : prospect_vars) (sfn : string) : list string :=
  firstn 3 (map adjust_exception (exception_templates v sfn)).

(** *** The whole function *)

(** [analyze_and_generate_message(prospect_data, sender_info, api_key,
    user_instructions, previous_message)] on the reply of its one POST.
    The instructions, the previous message and the prompt only enter the
    request, whose reply is an input of the model; [fuel] bounds the
    iterations of the [while] loop. *)
Definition analyze_and_generate_message (fuel : nat) (prospect_data sender_info : json)
    (response : reply) : outcome (list string) :=
  let v := extract_prospect prospect_data in
  match sender_first_name sender_info with
  | None => Raise
  | Some sfn =>
    match response with
    | Raised _ => Done (exception_fallbacks v sfn)
    | Reply code body =>
      if Z.eqb code 200 then
        match Brief.completion_content body with
        | Some (JStr c) =>
          let content := PyStr.strip c in
          let validated := flat_map (validate v sfn) (parse_options content) in
          match topup fuel (topup_templates v sfn) validated with
          | Done vm => Done (firstn 3 vm)
          | Raise => Raise
          | OutOfFuel => OutOfFuel
          end
        | _ => Done (exception_fallbacks v sfn)   (* KeyError, or .strip() on a non-string *)
        end
      else Done (firstn 3 (map adjust_error (error_fallbacks v sfn)))
    end
  end.

End Messages.

(* ================================================================== *)
(** ** [extract_username_from_url] (app.py lines 11-15) *)
(* ================================================================== *)

Module Username.

Definition is_slash (c : ascii) : bool := Ascii.eqb c "/"%char.

(** [s.strip("/")]. *)
Definition strip_slashes (s : string) : string :=
  PyStr.rstrip_by is_slash (PyStr.lstrip_by is_slash s).

(** [profile_url.split("/in/")[-1].strip("/").split("?")[0]] when the URL
    contains "/in/", the URL itself otherwise. [split] never gives an
    empty list, so neither [[-1]] nor [[0]] raises. *)
Definition extract_username_from_url (profile_url : string) : string :=
  if PyStr.contains "/in/" profile_url then
    hd "" (PyStr.split "?" (strip_slashes (last (PyStr.split "/in/" profile_url) "")))
  else profile_url.

End Username.

(* ================================================================== *)
(** ** [scrape_linkedin_posts] (app.py lines 48-161) *)
(* ================================================================== *)

Module Scrape.

(** [d.get(k, default)] on the fields of a dict ([default] is [None] for
    [d.get(k)]). *)
Definition get_or (kv : list (string * json)) (k : string) (default : json) : json :=
  match assoc k kv with Some v => v | None => default end.

(** [v1 or v2 or ... or last]. *)
Fixpoint py_or (vs : list json) (last : json) : json :=
  match vs with
  | [] => last
  | v :: vs' => if truthy v then v else py_or vs' last
  end.

Definition possible_post_fields : list string :=
  ["posts"; "data"; "items"; "activities"; "updates"].

(** The [for field in possible_post_fields] loop: the first field that
    holds a list (possibly empty), [[]] when there is none. *)
Fixpoint posts_field (fields : list string) (user_data : list (string * json)) : list json :=
  match fields with
  | [] => []
  | f :: fs =>
    match assoc f user_data with
    | Some (JArr l) => l
    | _ => posts_field fs user_data
    end
  end.

(** [posts] after "Option 1" (a non-empty list whose first item is a dict)
    and "Option 2" (a dict with a ["posts"] list). *)
Definition posts_of_data (data : json) : list json :=
  match data with
  | JArr (user_data :: _) =>
    match user_data with
    | JObj kv =>
      match posts_field possible_post_fields kv with
      | [] => if truthy user_data then [user_data] else []
      | posts => posts
      end
    | _ => []
    end
  | JObj kv =>
    match assoc "posts" kv with
    | Some (JArr l) => l
    | _ => []
    end
  | _ => []
  end.

(** The [for post in posts] loop that builds [valid_posts]; [None] when
    [post_text[:500]] raises (a number, a boolean or a dict as text). *)
Fixpoint valid_posts (posts : list json) : py (list json) :=
  match posts with
  | [] => Some []
  | post :: rest =>
    match post with
    | JObj kv =>
      let post_text := py_or [get_or kv "text" JNull; get_or kv "content" JNull;
                              get_or kv "description" JNull] (JStr "") in
      let timestamp := py_or [get_or kv "timestamp" JNull; get_or kv "published_at" JNull;
                              get_or kv "created_at" JNull] (JNum 0) in
      if truthy post_text then
        match py_slice 500 post_text, valid_posts rest with
        | Some text, Some l =>
          Some (JObj [("text", text); ("timestamp", timestamp);
                      ("url", get_or kv "url" (JStr ""));
                      ("stats", get_or kv "stats" (JObj []));
                      ("post_type", get_or kv "post_type" (JStr "regular"))] :: l)
        | _, _ => None
        end
      else valid_posts rest
    | _ => valid_posts rest
    end
  end.

Section Scraper.

(** [valid_posts.sort(key=lambda x: x.get('timestamp', 0), reverse=True)]:
    the sorted list, or [None] when comparing two keys raises TypeError. *)
Variable sort_posts : list json -> py (list json).

(** [scrape_linkedin_posts(profile_url, api_key)] on the reply of its one
    POST: the username only enters the payload. Every exception (the
    request, [response.json()], the loop, the sort) lands in one of the two
    [except] clauses, which return [[]]; a status code other than 200
    returns [[]] as well. *)
Definition scrape_linkedin_posts (response : reply) : list json :=
  match response with
  | Raised _ => []
  | Reply code body =>
    if Z.eqb code 200 then
      match body with
      | None => []
      | Some data =>
        match valid_posts (posts_of_data data) with
        | None => []
        | Some vp =>
          match sort_posts vp with
          | None => []
          | Some sorted => firstn 2 sorted
          end
        end
      end
    else []
  end.

End Scraper.

(** The sort key [x.get('timestamp', 0)] (every post given to the sort is
    a dict). *)
Definition timestamp_key (p : json) : json :=
  match p with
  | JObj kv => get_or kv "timestamp" (JNum 0)
  | _ => JNum 0
  end.

Definition as_int (v : json) : option Z :=
  match v with
  | JNum z => Some z
  | JBool b => Some (if b then 1 else 0)%Z
  | _ => None
  end.

(** [a < b] on two keys: two numbers (booleans are ints) or two strings
    compare; a number against a string, [None] or a dict raises TypeError.
    Two lists, which Python compares item by item, are also treated as
    raising here. *)
Definition key_lt (a b : json) : py bool :=
  match a, b with
  | JStr s, JStr t => Some (String.ltb s t)
  | _, _ =>
    match as_int a, as_int b with
    | Some x, Some y => Some (Z.ltb x y)
    | _, _ => None
    end
  end.

(** Stable sort by descending key, by insertion: [x] goes before the
    first element whose key is smaller than its own. On keys that are all
    numbers or all strings this is the unique stable order, i.e. what
    [list.sort(..., reverse=True)] gives. *)
Fixpoint insert_desc (x : json) (sorted : list json) : py (list json) :=
  match sorted with
  | [] => Some [x]
  | y :: ys =>
    match key_lt (timestamp_key y) (timestamp_key x) with
    | None => None
    | Some true => Some (x :: y :: ys)
    | Some false =>
      match insert_desc x ys with
      | Some l => Some (y :: l)
      | None => None
      end
    end
  end.

Fixpoint sort_desc_aux (acc : list json) (l : list json) : py (list json) :=
  match l with
  | [] => Some acc
  | x :: l' =>
    match insert_desc x acc with
    | Some acc' => sort_desc_aux acc' l'
    | None => None
    end
  end.

Definition sort_by_timestamp_desc (l : list json) : py (list json) := sort_desc_aux [] l.

End Scrape.

(* ================================================================== *)
(** ** [extract_sender_info_from_apify_data] (app.py lines 386-472) *)
(* ================================================================== *)

Module SenderInfo.

Definition defaults : list (string * json) :=
  [("name", JStr "Professional Contact"); ("current_role", JStr "Professional");
   ("current_company", JStr ""); ("expertise", JStr ""); ("industry", JStr "");
   ("key_achievements", JStr ""); ("professional_summary", JStr "")].

(** [d[k] = v]: an existing key keeps its place, a new one goes last. *)
Fixpoint dict_set (k : string) (v : json) (kv : list (string * json)) : list (string * json) :=
  match kv with
  | [] => [(k, v)]
  | (k', v') :: kv' => if String.eqb k k' then (k, v) :: kv' else (k', v') :: dict_set k v kv'
  end.

Definition get_or := Scrape.get_or.

(** The statements of the [try] block run in order; an exception leaves
    [sender_info] as the statements before it made it, and [except
    Exception: pass] returns it. *)
Inductive run : Type :=
| Ok (si : list (string * json))
| Exc (si : list (string * json)).

Definition and_then (r : run) (k : list (string * json) -> run) : run :=
  match r with
  | Ok si => k si
  | Exc si => Exc si
  end.

Definition final (r : run) : list (string * json) :=
  match r with Ok si => si | Exc si => si end.

(** [needle in container] for a string [needle]: a substring test on a
    string, [==] against the items of a list, a key test on a dict,
    TypeError on anything else. *)
Definition py_in (needle : string) (container : json) : py bool :=
  match container with
  | JStr s => Some (PyStr.contains needle s)
  | JArr l => Some (existsb (fun x => is_str x needle) l)
  | JObj kv => Some (existsb (fun '(k, _) => String.eqb k needle) kv)
  | _ => None
  end.

(** Extract name. *)
Definition name_block (kv : list (string * json)) (si : list (string * json)) : run :=
  let fullname := get_or kv "fullname" JNull in
  if truthy fullname then Ok (dict_set "name" fullname si)
  else
    let bi := get_or kv "basic_info" JNull in
    if truthy bi then
      match py_get bi "fullname" JNull with
      | None => Exc si                       (* .get on a non-dict *)
      | Some f => if truthy f then Ok (dict_set "name" f si) else Ok si
      end
    else Ok si.

(** Extract headline/role: the role is set to the headline before
    [' at ' in headline] is evaluated. *)
Definition headline_block (kv : list (string * json)) (si : list (string * json)) : run :=
  let headline := get_or kv "headline" JNull in
  if truthy headline then
    let si1 := dict_set "current_role" headline si in
    match py_in " at " headline with
    | None => Exc si1
    | Some false => Ok si1
    | Some true =>
      match headline with
      | JStr h =>
        let parts := PyStr.split " at " h in
        let si2 := dict_set "current_role" (JStr (PyStr.strip (hd "" parts))) si1 in
        if Nat.ltb 1 (List.length parts)
        then Ok (dict_set "current_company" (JStr (PyStr.strip (nth 1 parts ""))) si2)
        else Ok si2
      | _ => Exc si1                         (* .split on a list or a dict *)
      end
    end
  else Ok si.

(** Extract company from experience. *)
Definition experience_block (kv : list (string * json)) (si : list (string * json)) : run :=
  match get_or kv "experience" JNull with
  | JArr (current_exp :: _) =>
    match py_get current_exp "company" JNull with
    | None => Exc si
    | Some company =>
      let si1 := if truthy company then dict_set "current_company" company si else si in
      match py_get current_exp "title" JNull with
      | None => Exc si1
      | Some title =>
        if truthy title && negb (truthy (get_or si1 "current_role" JNull))
        then Ok (dict_set "current_role" title si1)
        else Ok si1
      end
    end
  | _ => Ok si
  end.

(** Extract summary: [apify_data['about'][:300]]. *)
Definition about_block (kv : list (string * json)) (si : list (string * json)) : run :=
  let about := get_or kv "about" JNull in
  if truthy about then
    match py_slice 300 about with
    | None => Exc si
    | Some s => Ok (dict_set "professional_summary" s si)
    end
  else Ok si.

(** [sep.join(items)]: TypeError unless every item is a string. *)
Fixpoint py_join (sep : string) (items : list json) : py string :=
  match items with
  | [] => Some ""
  | [JStr s] => Some s
  | JStr s :: rest =>
    match py_join sep rest with
    | Some r => Some (s ++ sep ++ r)
    | None => None
    end
  | _ => None
  end.

(** What one skill adds to [expertise_items]. *)
Definition skill_items (skill : json) : list json :=
  match skill with
  | JObj kv => if truthy (get_or kv "name" JNull) then [get_or kv "name" JNull] else []
  | JStr _ => [skill]
  | _ => []
  end.

(** Extract expertise from skills. *)
Definition skills_block (kv : list (string * json)) (si : list (string * json)) : run :=
  match get_or kv "skills" JNull with
  | JArr ((_ :: _) as skills) =>
    match flat_map skill_items skills with
    | [] => Ok si
    | expertise_items =>
      match py_join ", " (firstn 5 expertise_items) with
      | Some e => Ok (dict_set "expertise" (JStr e) si)
      | None => Exc si
      end
    end
  | _ => Ok si
  end.

Definition industry_keywords : list (string * list string) :=
  [("Technology", ["tech"; "software"; "AI"; "machine learning"; "data"; "cloud"; "SaaS"]);
   ("Finance", ["finance"; "banking"; "investment"; "financial"; "accounting"]);
   ("Healthcare", ["health"; "medical"; "pharma"; "biotech"; "hospital"]);
   ("Education", ["education"; "university"; "school"; "learning"; "academic"]);
   ("Consulting", ["consulting"; "consultant"; "advisory"; "strategy"]);
   ("Sales", ["sales"; "business development"; "account executive"; "revenue"])].

(** [(sender_info.get('current_role', '') + ' ' +
      sender_info.get('professional_summary', '')).lower()]: [+] raises
    TypeError unless both are strings. *)
Definition profile_text (si : list (string * json)) : py string :=
  match get_or si "current_role" (JStr ""), get_or si "professional_summary" (JStr "") with
  | JStr r, JStr s => Some (PyStr.lower (r ++ " " ++ s))
  | _, _ => None
  end.

(** The two nested [for] loops over [industry_keywords.items()]. *)
Fixpoint industry_loop (text : string) (table : list (string * list string))
    (si : list (string * json)) : list (string * json) :=
  match table with
  | [] => si
  | (industry, keywords) :: rest =>
    let si1 := if existsb (fun k => PyStr.contains (PyStr.lower k) text) keywords
               then dict_set "industry" (JStr industry) si else si in
    if truthy (get_or si1 "industry" JNull) then si1 else industry_loop text rest si1
  end.

(** Determine industry from headline/summary. *)
Definition industry_block (si : list (string * json)) : run :=
  match profile_text si with
  | None => Exc si
  | Some text => Ok (industry_loop text industry_keywords si)
  end.

(** Use role as expertise if no skills found. *)
Definition expertise_block (si : list (string * json)) : run :=
  if truthy (get_or si "expertise" JNull) then Ok si
  else Ok (dict_set "expertise" (get_or si "current_role" (JStr "Professional")) si).

Definition extract_sender_info_from_apify_data (apify_data : json) : json :=
  match apify_data with
  | JObj kv =>
    JObj (final (and_then (name_block kv defaults) (fun si1 =>
                 and_then (headline_block kv si1) (fun si2 =>
                 and_then (experience_block kv si2) (fun si3 =>
                 and_then (about_block kv si3) (fun si4 =>
                 and_then (skills_block kv si4) (fun si5 =>
                 and_then (industry_block si5) expertise_block)))))))
  | _ => JObj defaults
  end.

End SenderInfo.

(* ================================================================== *)
(** ** The message tab's session state (app.py lines 1086-1100,
       1380-1384 and 1404-1560) *)
(* ================================================================== *)

Module Session.

(** [st.session_state.generated_messages], [.current_message_index] and
    [.regenerate_mode]. *)
Record state : Type := {
  generated_messages : list json;
  current_message_index : Z;
  regenerate_mode : bool
}.

Definition init : state :=
  {| generated_messages := []; current_message_index := -1; regenerate_mode := false |}.

Definition len (l : list json) : Z := Z.of_nat (List.length l).

(** [{"text": msg, "char_count": len(msg), "option": i + 1}]. *)
Definition message_entry (i : nat) (msg : string) : json :=
  JObj [("text", JStr msg); ("char_count", JNum (Z.of_nat (String.length msg)));
        ("option", JNum (Z.of_nat (i + 1)))].

(** [for i, msg in enumerate(messages)], from index [i]. *)
Fixpoint entries_from (i : nat) (msgs : list string) : list json :=
  match msgs with
  | [] => []
  | m :: ms => message_entry i m :: entries_from (S i) ms
  end.

(** The handlers that change these three keys. The result of a call to
    [analyze_and_generate_message] is [None] when it raised (or never
    returned). A disabled button cannot be clicked. *)
Inductive event : Type :=
| ProspectAnalyzed                         (* a successful prospect analysis *)
| GenerateClicked (result : py (list string))
| RefineClicked
| PreviousClicked
| NextClicked
| RefineSubmitted (result : py (list string))
| CancelClicked.

Definition step (s : state) (e : event) : state :=
  let gm := generated_messages s in
  let idx := current_message_index s in
  match e with
  | ProspectAnalyzed =>
    {| generated_messages := []; current_message_index := -1;
       regenerate_mode := regenerate_mode s |}
  | GenerateClicked result =>
    match result with
    | Some ((_ :: _) as messages) =>
      {| generated_messages := entries_from 0 messages; current_message_index := 0;
         regenerate_mode := regenerate_mode s |}
    | _ =>
      {| generated_messages := []; current_message_index := idx;
         regenerate_mode := regenerate_mode s |}
    end
  | RefineClicked =>
    if (0 <? len gm)%Z
    then {| generated_messages := gm; current_message_index := idx; regenerate_mode := true |}
    else s
  | PreviousClicked =>
    if (0 <? len gm)%Z && negb (idx <=? 0)%Z
    then {| generated_messages := gm; current_message_index := idx - 1;
            regenerate_mode := false |}
    else s
  | NextClicked =>
    if (0 <? len gm)%Z && negb (len gm - 1 <=? idx)%Z
    then {| generated_messages := gm; current_message_index := idx + 1;
            regenerate_mode := false |}
    else s
  | RefineSubmitted result =>
    if (0 <? len gm)%Z && regenerate_mode s then
      match result with
      | Some ((_ :: _) as refined_message) =>
        let gm' := app gm [JArr (map JStr refined_message)] in
        {| generated_messages := gm'; current_message_index := len gm' - 1;
           regenerate_mode := false |}
      | _ => s
      end
    else s
  | CancelClicked =>
    if (0 <? len gm)%Z && regenerate_mode s
    then {| generated_messages := gm; current_message_index := idx; regenerate_mode := false |}
    else s
  end.

(** The state after a sequence of clicks from the initial one. *)
Definition replay (events : list event) : state := fold_left step events init.

(** [l[i]] for an integer [i]: a negative index counts from the end;
    IndexError out of range. *)
Definition py_index (l : list json) (i : Z) : py json :=
  if (0 <=? i)%Z then nth_error l (Z.to_nat i)
  else if (- len l <=? i)%Z then nth_error l (Z.to_nat (len l + i))
  else None.

(** "Display current message" (lines 1441-1468): the entry at the current
    index, its ["text"] and ["char_count"], [is_complete] and the
    ["option"] of the header. *)
Definition render_current (s : state) : py unit :=
  match py_index (generated_messages s) (current_message_index s) with
  | None => None
  | Some current_msg_data =>
    match subscript_key current_msg_data "text",
          subscript_key current_msg_data "char_count" with
    | Some current_msg, Some char_count =>
      match SenderInfo.py_in "..." current_msg with
      | None => None
      | Some has3 =>
        match (if has3 then Some true else SenderInfo.py_in ".." current_msg) with
        | None => None
        | Some cut =>
          match (if cut then Some false
                 else option_map negb (PostFilter.py_lt char_count 250)) with
          | None => None
          | Some _ =>
            match subscript_key current_msg_data "option" with
            | Some _ => Some tt
            | None => None
            end
          end
        end
      end
    | _, _ => None
    end
  end.

(** "Message History" (lines 1538-1560): [msg.split('\n')] on every
    entry; only a string has [.split]. *)
Fixpoint history_loop (msgs : list json) : py unit :=
  match msgs with
  | [] => Some tt
  | JStr _ :: rest => history_loop rest
  | _ :: _ => None
  end.

(** The part of the message tab below the Generate and Refine buttons. *)
Definition render_messages (s : state) : py unit :=
  let gm := generated_messages s in
  if (0 <? len gm)%Z then
    match render_current s with
    | None => None
    | Some _ => if (1 <? len gm)%Z then history_loop gm else Some tt
    end
  else Some tt.

End Session.

(* ================================================================== *)
(** ** Predicates used by the statements *)
(* ================================================================== *)

Module Preds.
Import Poller.

(** A status reply that neither shows SUCCEEDED nor a failure status. *)
Definition quiet (r : reply) : bool :=
  match read_status r with
  | SStatus cur => negb (is_str cur "SUCCEEDED") && negb (is_failure cur)
  | _ => true
  end.

(** A status reply showing RUNNING. *)
Definition running (r : reply) : bool :=
  match read_status r with
  | SStatus cur => is_str cur "RUNNING"
  | _ => false
  end.

(** The sleeps that follow a quiet status reply in the same attempt. *)
Definition quiet_sleep (r : reply) : list call :=
  match read_status r with
  | SStatus cur => if is_str cur "RUNNING" then [Sleep 10] else []
  | _ => [Sleep 10]
  end.

(** A dataset reply that carries no payload: anything but a 200 whose
    body is a non-empty list or an object (an empty list, another JSON
    value, an unparsable body, another status code, an exception). *)
Definition no_payload (r : reply) : bool :=
  match r with
  | Reply code (Some (JArr (_ :: _))) => negb (Z.eqb code 200)
  | Reply code (Some (JObj _)) => negb (Z.eqb code 200)
  | _ => true
  end.

(** A completion request that failed: it raised or answered with a
    status code other than 200. *)
Definition failed_request (r : reply) : bool :=
  match r with
  | Raised _ => true
  | Reply code _ => negb (Z.eqb code 200)
  end.

(** A post on which the filter does not raise: a dict whose ["text"] is
    a string or absent and whose ["timestamp"] is a number or absent, or
    any non-dict (skipped). *)
Definition well_typed_post (p : json) : bool :=
  match p with
  | JObj kv =>
    match assoc "text" kv with None | Some (JStr _) => true | _ => false end &&
    match assoc "timestamp" kv with None | Some (JNum _) | Some (JBool _) => true | _ => false end
  | _ => true
  end.

(** A completion reply whose content is the string [c]. *)
Definition completion_reply (c : string) : reply :=
  Reply 200 (Some (JObj [("choices", JArr [JObj [("message", JObj [("content", JStr c)])]])])).

Definition thirty_days : Z := (30 * 24 * 60 * 60)%Z.

End Preds.

(* ================================================================== *)
(** * Theorems *)
(* ================================================================== *)

Module PollerFacts.
Import Poller Preds.
Local Open Scope list_scope.

Lemma slept_app : forall a b, slept (a ++ b) = (slept a + slept b)%Z.
Proof.
  induction a as [|c a IH]; intros b; simpl; [reflexivity|].
  destruct c; rewrite IH; lia.
Qed.

Lemma status_checks_app : forall a b,
  status_checks (a ++ b) = status_checks a + status_checks b.
Proof. intros a b. unfold status_checks. rewrite filter_app, length_app. reflexivity. Qed.

Lemma dataset_fetches_app : forall a b,
  dataset_fetches (a ++ b) = dataset_fetches a + dataset_fetches b.
Proof. intros a b. unfold dataset_fetches. rewrite filter_app, length_app. reflexivity. Qed.

Lemma attempt_quiet : forall r rest dr cl,
  quiet r = true ->
  attempt {| status_replies := r :: rest; dataset_replies := dr; calls := cl |}
  = (Next, {| status_replies := rest; dataset_replies := dr;
              calls := cl ++ StatusGet :: quiet_sleep r |}).
Proof.
  intros r rest dr cl Hq.
  unfold quiet, quiet_sleep in *.
  unfold attempt, bind, get_status, sleep, ret; simpl.
  destruct (read_status r) as [| |cur]; simpl.
  - rewrite <- app_assoc; reflexivity.
  - rewrite <- app_assoc; reflexivity.
  - destruct (is_str cur "SUCCEEDED"); [discriminate|].
    destruct (is_failure cur); [discriminate|].
    destruct (is_str cur "RUNNING"); simpl.
    + rewrite <- app_assoc; reflexivity.
    + reflexivity.
Qed.

Lemma attempt_empty_queue : forall dr cl,
  attempt {| status_replies := []; dataset_replies := dr; calls := cl |}
  = (Next, {| status_replies := []; dataset_replies := dr;
              calls := cl ++ [StatusGet; Sleep 10] |}).
Proof.
  intros dr cl. unfold attempt, bind, get_status, sleep, ret; simpl.
  rewrite <- app_assoc; reflexivity.
Qed.

Lemma poll_loop_quiet : forall n sr dr cl,
  forallb quiet (firstn n sr) = true ->
  exists t,
    poll_loop n {| status_replies := sr; dataset_replies := dr; calls := cl |}
    = (None, {| status_replies := skipn n sr; dataset_replies := dr; calls := cl ++ t |})
    /\ status_checks t = n /\ dataset_fetches t = 0
    /\ (forallb running (firstn n sr) = true -> slept t = (10 * Z.of_nat n)%Z).
Proof.
  induction n as [|n IH]; intros sr dr cl Hq.
  - exists []. rewrite app_nil_r. repeat split.
  - destruct sr as [|r rest].
    + simpl poll_loop. unfold bind at 1. rewrite attempt_empty_queue.
      destruct (IH [] dr (cl ++ [StatusGet; Sleep 10])) as (t & Ht & Hs & Hd & Hr);
        [rewrite firstn_nil; reflexivity|].
      exists ([StatusGet; Sleep 10] ++ t).
      rewrite Ht, app_assoc, skipn_nil. rewrite firstn_nil in Hr.
      repeat split.
      * unfold status_checks in *. cbn [filter app is_status_get length]. lia.
      * unfold dataset_fetches in *. cbn [filter app is_dataset_get length]. lia.
      * intros _. change (slept ([StatusGet; Sleep 10] ++ t)) with (10 + slept t)%Z.
        rewrite Hr by reflexivity. lia.
    + simpl in Hq. apply andb_prop in Hq as [Hr Hq].
      simpl poll_loop. unfold bind at 1. rewrite attempt_quiet by exact Hr.
      destruct (IH rest dr (cl ++ StatusGet :: quiet_sleep r)) as (t & Ht & Hs & Hd & Hrun);
        [exact Hq|].
      exists (StatusGet :: quiet_sleep r ++ t).
      rewrite Ht, <- app_assoc. simpl skipn.
      assert (Hqs : status_checks (quiet_sleep r) = 0 /\ dataset_fetches (quiet_sleep r) = 0).
      { unfold quiet_sleep. destruct (read_status r) as [| |cur];
          [| | destruct (is_str cur "RUNNING")]; split; reflexivity. }
      destruct Hqs as [Hqs1 Hqs2].
      repeat split.
      * change (StatusGet :: quiet_sleep r ++ t) with ([StatusGet] ++ quiet_sleep r ++ t).
        rewrite !status_checks_app, Hqs1, Hs. reflexivity.
      * change (StatusGet :: quiet_sleep r ++ t) with ([StatusGet] ++ quiet_sleep r ++ t).
        rewrite !dataset_fetches_app, Hqs2, Hd. reflexivity.
      * intros H. simpl in H. apply andb_prop in H as [H1 H2].
        change (StatusGet :: quiet_sleep r ++ t) with ([StatusGet] ++ quiet_sleep r ++ t).
        rewrite !slept_app, Hrun by exact H2.
        unfold running, quiet_sleep in *.
        destruct (read_status r) as [| |cur]; try discriminate. rewrite H1.
        cbn [slept]. rewrite Nat2Z.inj_succ. lia.
Qed.

Lemma attempt_no_payload : forall w,
  forallb no_payload (dataset_replies w) = true ->
  (fst (attempt w) = Next \/ fst (attempt w) = Return None) /\
  forallb no_payload (dataset_replies (snd (attempt w))) = true.
Proof.
  intros [sr dr cl] H. simpl in H.
  unfold attempt, bind, get_status, get_dataset, sleep, ret, pop.
  destruct sr as [|r rest]; cbn -[is_str is_failure]; [auto|].
  destruct (read_status r) as [| |cur]; cbn -[is_str is_failure]; [auto|auto|].
  destruct (is_str cur "SUCCEEDED").
  - destruct dr as [|d dr']; cbn -[is_str is_failure]; [auto|].
    simpl in H. apply andb_prop in H as [Hd Hdr].
    destruct d as [b|code body]; cbn -[is_str is_failure]; [auto|].
    destruct (Z.eqb code 200) eqn:Hc; [|auto].
    destruct body as [items|]; [|auto].
    destruct items as [| | | |[|x xs]|kv]; auto;
      simpl in Hd; rewrite Hc in Hd; discriminate.
  - destruct (is_failure cur); [auto|].
    destruct (is_str cur "RUNNING"); auto.
Qed.

Lemma poll_loop_no_payload : forall n w,
  forallb no_payload (dataset_replies w) = true ->
  fst (poll_loop n w) = None.
Proof.
  induction n as [|n IH]; intros w H; [reflexivity|].
  cbn [poll_loop]. unfold bind at 1.
  destruct (attempt_no_payload w H) as [Hs Hw].
  destruct (attempt w) as [st w']. simpl in Hs, Hw.
  destruct Hs as [-> | ->]; [apply IH; exact Hw | reflexivity].
Qed.

(** C1: at any attempt, a status check that reports FAILED, TIMED-OUT
    (the service's spelling of TIMED_OUT) or ABORTED ends the poll at once
    with [None]: the only call made is that one status check, with no
    sleep and no dataset fetch. *)
Theorem poll_stops_on_terminal_failure : forall n r rest dr cl s,
  read_status r = SStatus (JStr s) ->
  In s failure_statuses ->
  poll_loop (S n) {| status_replies := r :: rest; dataset_replies := dr; calls := cl |}
  = (None, {| status_replies := rest; dataset_replies := dr; calls := cl ++ [StatusGet] |}).
Proof.
  intros n r rest dr cl s Hr Hin.
  cbn [poll_loop]. unfold bind at 1.
  unfold attempt, bind, get_status, ret, pop. cbn -[is_str is_failure read_status].
  rewrite Hr.
  destruct Hin as [<- | [<- | [<- | []]]]; reflexivity.
Qed.

Lemma poll_stops_on_terminal_failure_witness :
  read_status (status_reply "FAILED") = SStatus (JStr "FAILED") /\
  poll_apify_run_with_status (start [status_reply "FAILED"] [Reply 200 (Some (JArr [JNull]))])
  = (None, {| status_replies := []; dataset_replies := [Reply 200 (Some (JArr [JNull]))];
              calls := [StatusGet] |}).
Proof.
  split; [reflexivity|].
  exact (poll_stops_on_terminal_failure 59 (status_reply "FAILED") []
           [Reply 200 (Some (JArr [JNull]))] [] "FAILED" eq_refl (or_introl eq_refl)).
Defined.

(** C2: when none of the status checks of the 60 attempts shows
    SUCCEEDED or a failure status, the poller returns [None] after
    exactly 60 status checks and no dataset fetch; when all of them show
    RUNNING it has slept 60 x 10 seconds. *)
Theorem poll_times_out_after_max_attempts : forall sr dr cl,
  forallb quiet (firstn max_attempts sr) = true ->
  exists t,
    poll_apify_run_with_status {| status_replies := sr; dataset_replies := dr; calls := cl |}
    = (None, {| status_replies := skipn max_attempts sr; dataset_replies := dr;
                calls := cl ++ t |})
    /\ status_checks t = 60 /\ dataset_fetches t = 0
    /\ (forallb running (firstn max_attempts sr) = true -> slept t = 600%Z).
Proof.
  intros sr dr cl H.
  destruct (poll_loop_quiet max_attempts sr dr cl H) as (t & Ht & Hs & Hd & Hr).
  exists t. repeat split; auto.
Qed.

Lemma poll_times_out_after_max_attempts_witness :
  forallb quiet (firstn max_attempts (repeat (status_reply "RUNNING") 60)) = true /\
  exists t,
    poll_apify_run_with_status (start (repeat (status_reply "RUNNING") 60) [])
    = (None, {| status_replies := []; dataset_replies := []; calls := t |})
    /\ status_checks t = 60 /\ dataset_fetches t = 0 /\ slept t = 600%Z.
Proof.
  split; [reflexivity|].
  destruct (poll_times_out_after_max_attempts (repeat (status_reply "RUNNING") 60) [] []
              eq_refl) as (t & Ht & Hs & Hd & Hr).
  exists t. split; [exact Ht|]. split; [exact Hs|]. split; [exact Hd|].
  exact (Hr eq_refl).
Defined.

(** C3: when the dataset endpoint never delivers a payload (every reply
    is an empty list, a JSON value that is neither a list nor an object,
    an unparsable body, a non-200 code or an exception), the poller
    returns [None]; it has no way to raise. *)
Theorem poll_empty_dataset_returns_none : forall sr dr cl,
  forallb no_payload dr = true ->
  fst (poll_apify_run_with_status
         {| status_replies := sr; dataset_replies := dr; calls := cl |}) = None.
Proof.
  intros sr dr cl H. apply poll_loop_no_payload. exact H.
Qed.

Lemma poll_empty_dataset_returns_none_witness :
  forallb no_payload [Reply 200 (Some (JArr []))] = true /\
  fst (poll_apify_run_with_status (start [status_reply "SUCCEEDED"] [Reply 200 (Some (JArr []))]))
  = None.
Proof.
  split; [reflexivity|].
  exact (poll_empty_dataset_returns_none [status_reply "SUCCEEDED"] [Reply 200 (Some (JArr []))]
           [] eq_refl).
Defined.

(** C4: a status other than SUCCEEDED, a failure status and RUNNING
    (here READY, which the service reports for a queued run) is followed
    by no sleep: 60 such replies make 60 status checks back to back with
    no sleep at all. The same holds when SUCCEEDED comes with an empty
    dataset, where each attempt also fetches the dataset. *)
Theorem poll_busy_waits_on_unlisted_status :
  poll_apify_run_with_status (start (repeat (status_reply "READY") 60) [])
  = (None, {| status_replies := []; dataset_replies := []; calls := repeat StatusGet 60 |})
  /\
  poll_apify_run_with_status
    (start (repeat (status_reply "SUCCEEDED") 60) (repeat (Reply 200 (Some (JArr []))) 60))
  = (None, {| status_replies := []; dataset_replies := [];
              calls := concat (repeat [StatusGet; DatasetGet] 60) |}).
Proof. split; vm_compute; reflexivity. Qed.

(** C5: a status check that raises is followed by a 10 second sleep and
    the next attempt, exactly as a RUNNING status is. *)
Theorem poll_status_exception_is_transient : forall n timeout rest dr cl,
  poll_loop (S n) {| status_replies := Raised timeout :: rest; dataset_replies := dr; calls := cl |}
  = poll_loop n {| status_replies := rest; dataset_replies := dr;
                   calls := cl ++ [StatusGet; Sleep 10] |}
  /\
  poll_loop (S n) {| status_replies := Raised timeout :: rest; dataset_replies := dr; calls := cl |}
  = poll_loop (S n) {| status_replies := status_reply "RUNNING" :: rest; dataset_replies := dr;
                       calls := cl |}.
Proof.
  intros n timeout rest dr cl. split.
  - cbn [poll_loop]. unfold bind at 1.
    unfold attempt, bind, get_status, sleep, ret, pop. simpl.
    rewrite <- app_assoc. reflexivity.
  - reflexivity.
Qed.

(** C7: when a status check shows SUCCEEDED and the dataset reply is a
    non-empty list, the poller returns its first item itself, after one
    status check and one dataset fetch. *)
Theorem poll_returns_first_item : forall n r rest x xs dr cl,
  read_status r = SStatus (JStr "SUCCEEDED") ->
  poll_loop (S n) {| status_replies := r :: rest;
                     dataset_replies := Reply 200 (Some (JArr (x :: xs))) :: dr; calls := cl |}
  = (Some x, {| status_replies := rest; dataset_replies := dr;
                calls := cl ++ [StatusGet; DatasetGet] |}).
Proof.
  intros n r rest x xs dr cl Hr.
  cbn [poll_loop]. unfold bind at 1.
  unfold attempt, bind, get_status, get_dataset, ret, pop. cbn -[read_status].
  rewrite Hr. simpl. rewrite <- app_assoc. reflexivity.
Qed.

Lemma poll_returns_first_item_witness :
  read_status (status_reply "SUCCEEDED") = SStatus (JStr "SUCCEEDED") /\
  fst (poll_apify_run_with_status
         (start [status_reply "RUNNING"; status_reply "RUNNING"; status_reply "RUNNING";
                 status_reply "SUCCEEDED"]
                [Reply 200 (Some (JArr [JObj [("fullname", JStr "Ada Lovelace")]]))]))
  = Some (JObj [("fullname", JStr "Ada Lovelace")]).
Proof.
  split; [reflexivity|].
  change (poll_apify_run_with_status _) with
    (poll_loop (S 56)
       {| status_replies := [status_reply "SUCCEEDED"];
          dataset_replies := [Reply 200 (Some (JArr [JObj [("fullname", JStr "Ada Lovelace")]]))];
          calls := [StatusGet; Sleep 10; StatusGet; Sleep 10; StatusGet; Sleep 10] |}).
  rewrite (poll_returns_first_item 56 (status_reply "SUCCEEDED") []
             (JObj [("fullname", JStr "Ada Lovelace")]) [] [] _ eq_refl).
  reflexivity.
Defined.

End PollerFacts.

Module SubmitterFacts.
Import Preds.

(** C6: [start_apify_run] gives a handle exactly when the POST answers 201
    with a body carrying [data.id] and [data.defaultDatasetId]; the
    handle holds those two values and the status RUNNING. In every other
    case (another status code, an exception, a body without the ids) it
    gives [None]: the model has no raising outcome. *)
Theorem start_apify_run_contract : forall r,
  match start_apify_run r with
  | Some h =>
    run_status h = "RUNNING" /\
    exists b d, r = Reply 201 (Some b) /\ subscript_key b "data" = Some d /\
                subscript_key d "id" = Some (run_id h) /\
                subscript_key d "defaultDatasetId" = Some (dataset_id h)
  | None =>
    forall b d rid dsid, r = Reply 201 (Some b) -> subscript_key b "data" = Some d ->
      subscript_key d "id" = Some rid -> subscript_key d "defaultDatasetId" = Some dsid -> False
  end.
Proof.
  intros [t|code body]; simpl; [intros b d rid dsid H; discriminate|].
  destruct (Z.eqb code 201) eqn:Hc.
  - apply Z.eqb_eq in Hc; subst code.
    destruct body as [b|]; [|intros b' d' rid dsid H; discriminate].
    destruct (subscript_key b "data") as [d|] eqn:Hd;
      [|intros b' d' rid dsid H; injection H as <-; congruence].
    destruct (subscript_key d "id") as [rid|] eqn:Hi;
      [|intros b' d' rid dsid H; injection H as <-; congruence].
    destruct (subscript_key d "defaultDatasetId") as [dsid|] eqn:Hs;
      [|intros b' d' rid' dsid' H; injection H as <-; congruence].
    simpl. split; [reflexivity|]. exists b, d. auto.
  - intros b d rid dsid H. injection H as -> _. discriminate.
Qed.

End SubmitterFacts.

Module MessageFacts.
Import Preds Messages.

Lemma append_nonempty_l : forall a b, a <> "" -> a ++ b <> "".
Proof. intros [|c a] b H; [contradiction|]. simpl. discriminate. Qed.

Lemma append_nonempty_r : forall a b, b <> "" -> a ++ b <> "".
Proof. intros [|c a] b H; [exact H|]. simpl. discriminate. Qed.

Lemma adjust_error_nonempty : forall s, s <> "" -> adjust_error s <> "".
Proof.
  intros s H. unfold adjust_error.
  destruct (Nat.ltb 300 (String.length s)); [apply append_nonempty_r; discriminate|].
  destruct (Nat.ltb (String.length s) 250); [apply append_nonempty_l; exact H | exact H].
Qed.

Lemma adjust_exception_nonempty : forall s, s <> "" -> adjust_exception s <> "".
Proof.
  intros s H. unfold adjust_exception.
  destruct (in_range s); [exact H|].
  destruct (Nat.ltb 300 (String.length s)); apply append_nonempty_r; discriminate.
Qed.

(** The [while] loop does not leave a list shorter than three that its
    body does not change. *)
Lemma topup_stuck : forall fuel templates vm,
  List.length vm < 3 -> topup_body templates vm = vm ->
  topup fuel templates vm = OutOfFuel.
Proof.
  induction fuel as [|fuel IH]; intros templates vm Hlen Hbody; simpl;
    (replace (Nat.ltb (List.length vm) 3) with true by (symmetry; apply Nat.ltb_lt; exact Hlen)).
  - reflexivity.
  - rewrite Hbody. apply IH; assumption.
Qed.

(** C8: when the completion request raises or answers with a status code
    other than 200, [generate_research_brief] returns one of its fixed
    fallback texts, a non-empty string, and [analyze_and_generate_message]
    returns three non-empty fallback messages; the only other outcome of
    the latter is an exception raised by reading [sender_info], before
    any request is made. *)
Theorem generators_fall_back_on_failed_request : forall r fuel prospect_data sender_info,
  failed_request r = true ->
  (exists s, Brief.generate_research_brief r = JStr s /\ s <> "" /\
     (s = Brief.timeout_text \/ s = Brief.unavailable_text \/
      exists code, s = Brief.status_text code))
  /\
  ((sender_first_name sender_info = None /\
    analyze_and_generate_message fuel prospect_data sender_info r = Raise) \/
   exists l, analyze_and_generate_message fuel prospect_data sender_info r = Done l /\
             List.length l = 3 /\ Forall (fun m => m <> "") l).
Proof.
  intros r fuel pd si Hr. split.
  - destruct r as [[|]|code body]; simpl in Hr |- *.
    + eexists; split; [reflexivity|]. split; [discriminate|]. left; reflexivity.
    + eexists; split; [reflexivity|]. split; [discriminate|]. right; left; reflexivity.
    + destruct (Z.eqb code 200); [discriminate|].
      eexists; split; [reflexivity|]. split; [discriminate|]. right; right; eauto.
  - unfold analyze_and_generate_message.
    destruct (sender_first_name si) as [sfn|]; [right|left; split; reflexivity].
    destruct r as [t|code body].
    + eexists; split; [reflexivity|]. split; [reflexivity|].
      repeat constructor; apply adjust_exception_nonempty; discriminate.
    + simpl in Hr. destruct (Z.eqb code 200); [discriminate|].
      eexists; split; [reflexivity|]. split; [reflexivity|].
      repeat constructor; apply adjust_error_nonempty; discriminate.
Qed.

Lemma generators_fall_back_on_failed_request_witness :
  failed_request (Reply 500 None) = true /\
  Brief.generate_research_brief (Reply 500 None) = JStr (Brief.status_text 500) /\
  exists l, analyze_and_generate_message 10 (JObj []) (JObj []) (Reply 500 None) = Done l /\
            List.length l = 3.
Proof.
  destruct (generators_fall_back_on_failed_request (Reply 500 None) 10 (JObj []) (JObj []) eq_refl)
    as [_ [[Hn _] | (l & Hl & Hlen & _)]].
  - discriminate Hn.
  - split; [reflexivity|]. split; [reflexivity|]. exists l. split; assumption.
Defined.

(** With the default prospect and sender values the three top-up
    templates are 183, 176 and 164 characters long. *)
Lemma default_topup_template_lengths :
  map String.length (topup_templates (extract_prospect (JObj [])) "Professional")
  = [183; 176; 164].
Proof. reflexivity. Qed.

(** C9: the [while] loop can run forever. With an empty prospect dict,
    an empty sender dict and a completion without any "Option k:" line,
    no message is validated, and all three top-up templates are shorter
    than 250 characters (183, 176 and 164), so no iteration adds one:
    however many iterations are allowed, the loop has not exited. *)
Theorem analyze_topup_loop_never_exits : forall fuel,
  analyze_and_generate_message fuel (JObj []) (JObj []) (completion_reply "Sorry.")
  = OutOfFuel.
Proof.
  intros fuel.
  assert (Hv : flat_map (validate (extract_prospect (JObj [])) "Professional")
                        (parse_options (PyStr.strip "Sorry.")) = []) by reflexivity.
  transitivity (match topup fuel (topup_templates (extract_prospect (JObj [])) "Professional")
                             (flat_map (validate (extract_prospect (JObj [])) "Professional")
                                       (parse_options (PyStr.strip "Sorry."))) with
                | Done vm => Done (firstn 3 vm)
                | Raise => Raise
                | OutOfFuel => OutOfFuel
                end); [reflexivity|].
  rewrite Hv.
  rewrite topup_stuck; [reflexivity | simpl; lia |].
  reflexivity.
Qed.

End MessageFacts.

Module PostFilterFacts.
Import Preds PostFilter.

Lemma filter_loop_sound : forall b posts l,
  filter_loop b posts = Some l ->
  forall p, In p l ->
  In p posts /\
  exists kv t ts, p = JObj kv /\ py_get p "text" (JStr "") = Some (JStr t) /\
    py_get p "timestamp" (JNum 0) = Some ts /\ py_lt ts b = Some false /\
    any_keyword include_keywords (PyStr.lower t) = true /\
    any_keyword exclude_keywords (PyStr.lower t) = false.
Proof.
  intros b posts. induction posts as [|q posts IH]; intros l H p Hp.
  - simpl in H. injection H as <-. destruct Hp.
  - cbn [filter_loop] in H.
    destruct q as [| | | | |kv];
      try (destruct (IH l H p Hp) as [Hin Hk]; split; [right; exact Hin | exact Hk]).
    destruct (py_get (JObj kv) "text" (JStr "")) as [[| | |t| |]|] eqn:Ht; try discriminate.
    destruct (py_get (JObj kv) "timestamp" (JNum 0)) as [ts|] eqn:Hts; [|discriminate].
    destruct (py_lt ts b) as [[|]|] eqn:Hlt; [| |discriminate].
    + destruct (IH l H p Hp) as [Hin Hk]. split; [right; exact Hin | exact Hk].
    + destruct (negb (any_keyword exclude_keywords (PyStr.lower t)) &&
                any_keyword include_keywords (PyStr.lower t)) eqn:Hk.
      * destruct (filter_loop b posts) as [l'|] eqn:Hl'; [|discriminate].
        injection H as <-. destruct Hp as [<- | Hp].
        -- split; [left; reflexivity|].
           apply andb_prop in Hk as [Hex Hin]. apply negb_true_iff in Hex.
           exists kv, t, ts. repeat split; assumption.
        -- destruct (IH l' eq_refl p Hp) as [Hin Hk']. split; [right; exact Hin | exact Hk'].
      * destruct (IH l H p Hp) as [Hin Hk']. split; [right; exact Hin | exact Hk'].
Qed.

Lemma filter_loop_total : forall b posts,
  forallb well_typed_post posts = true ->
  exists l, filter_loop b posts = Some l.
Proof.
  intros b posts. induction posts as [|q posts IH]; intros H; [exists []; reflexivity|].
  simpl in H. apply andb_prop in H as [Hq H].
  destruct (IH H) as [l' Hl'].
  cbn [filter_loop].
  destruct q as [| | | | |kv]; try (exists l'; exact Hl').
  unfold well_typed_post in Hq. apply andb_prop in Hq as [Htx Htm].
  assert (Htext : exists t, py_get (JObj kv) "text" (JStr "") = Some (JStr t)).
  { unfold py_get. destruct (assoc "text" kv) as [[| | |t| |]|]; try discriminate;
      eexists; reflexivity. }
  assert (Htime : exists ts c, py_get (JObj kv) "timestamp" (JNum 0) = Some ts /\
                               py_lt ts b = Some c).
  { unfold py_get. destruct (assoc "timestamp" kv) as [[|bb|z| | |]|]; try discriminate;
      do 2 eexists; split; reflexivity. }
  destruct Htext as [t Ht]. destruct Htime as (ts & c & Hts & Hc).
  rewrite Ht, Hts, Hc.
  destruct c; [exists l'; exact Hl'|].
  destruct (_ && _); [rewrite Hl'; eexists; reflexivity | exists l'; exact Hl'].
Qed.

Lemma filter_loop_some_well_typed : forall b posts l,
  filter_loop b posts = Some l -> forallb well_typed_post posts = true.
Proof.
  intros b posts. induction posts as [|q posts IH]; intros l H; [reflexivity|].
  cbn [filter_loop] in H. simpl.
  destruct q as [| | | | |kv]; try (apply (IH l H)).
  destruct (py_get (JObj kv) "text" (JStr "")) as [[| | |t| |]|] eqn:Ht; try discriminate.
  destruct (py_get (JObj kv) "timestamp" (JNum 0)) as [ts|] eqn:Hts; [|discriminate].
  destruct (py_lt ts b) as [c|] eqn:Hlt; [|discriminate].
  assert (Hrest : forallb well_typed_post posts = true).
  { destruct c; [exact (IH l H)|].
    destruct (_ && _); [|exact (IH l H)].
    destruct (filter_loop b posts) as [l'|] eqn:Hl'; [exact (IH l' eq_refl) | discriminate]. }
  rewrite Hrest, andb_true_r.
  unfold py_get in Ht, Hts. unfold well_typed_post.
  destruct (assoc "text" kv) as [tv|]; [injection Ht as ->|];
    (destruct (assoc "timestamp" kv) as [tsv|]; injection Hts as <-;
     [destruct tsv; try reflexivity; discriminate Hlt | reflexivity]).
Qed.

(** A dict post whose ["timestamp"] is a string
    makes [post_time < one_month_ago] raise TypeError, so the function
    returns nothing for that input. *)
Lemma filter_raises_on_string_timestamp :
  filter_recent_relevant_posts 1700000000
    [JObj [("text", JStr "Our digital strategy"); ("timestamp", JStr "2023-11-01")]]
  = None.
Proof. reflexivity. Qed.

(** C10 (code bug): [filter_recent_relevant_posts] raises, instead of
    returning a sub-list, on every list holding a dict post whose ["text"]
    is present and not a string ([.lower()] raises) or whose
    ["timestamp"] is present and not a number ([<] raises TypeError);
    its caller does not catch it. On the other lists, when the current
    time is more than 30 days after the epoch, it returns, and whatever
    it returns is made of input posts, each a dict with a ["text"] string
    and a ["timestamp"] (so a post without one is dropped) no older than
    30 days, whose lowercased text contains an include keyword and no
    exclude keyword. *)
Theorem filter_recent_relevant_posts_contract : forall now posts,
  (thirty_days < now)%Z ->
  ((exists p, In p posts /\ well_typed_post p = false) ->
   filter_recent_relevant_posts now posts = None)
  /\
  (forallb well_typed_post posts = true ->
   exists l, filter_recent_relevant_posts now posts = Some l)
  /\
  (forall l, filter_recent_relevant_posts now posts = Some l ->
   forall p, In p l ->
   In p posts /\
   exists kv t ts, p = JObj kv /\ assoc "text" kv = Some (JStr t) /\
     assoc "timestamp" kv = Some ts /\ py_lt ts (now - thirty_days) = Some false /\
     any_keyword include_keywords (PyStr.lower t) = true /\
     any_keyword exclude_keywords (PyStr.lower t) = false).
Proof.
  intros now posts Hnow. split; [|split].
  - intros (p & Hp & Hbad). unfold filter_recent_relevant_posts.
    destruct (filter_loop _ posts) as [l|] eqn:Hl; [|reflexivity].
    apply filter_loop_some_well_typed in Hl.
    rewrite forallb_forall in Hl. rewrite (Hl p Hp) in Hbad. discriminate.
  - apply filter_loop_total.
  - intros l Hl p Hp.
    destruct (filter_loop_sound _ _ _ Hl p Hp)
      as [Hin (kv & t & ts & -> & Ht & Hts & Hlt & Hinc & Hexc)].
    split; [exact Hin|]. exists kv, t, ts.
    unfold py_get in Ht, Hts.
    destruct (assoc "text" kv) as [tv|] eqn:Htv.
    2:{ injection Ht as <-. discriminate Hinc. }
    destruct (assoc "timestamp" kv) as [tsv|] eqn:Htsv.
    2:{ injection Hts as <-. unfold thirty_days in *. simpl in Hlt.
        replace (0 <? now - 2592000)%Z with true in Hlt
          by (symmetry; apply Z.ltb_lt; lia).
        discriminate. }
    injection Ht as ->. injection Hts as ->.
    repeat split; assumption.
Qed.

(** The post that [scrape_linkedin_posts] builds from a post with a
    string ["published_at"] and no ["timestamp"] makes the filter raise;
    a well-typed list is filtered. *)
Lemma filter_recent_relevant_posts_contract_witness :
  (thirty_days < 1700000000)%Z /\
  filter_recent_relevant_posts 1700000000
    [JObj [("text", JStr "Our digital strategy for 2024"); ("timestamp", JStr "2023-11-14T10:00:00");
           ("url", JStr ""); ("stats", JObj []); ("post_type", JStr "regular")]]
  = None /\
  filter_recent_relevant_posts 1700000000
    [JObj [("text", JStr "Our DIGITAL roadmap"); ("timestamp", JNum 1699990000)];
     JObj [("text", JStr "We are hiring for our digital team"); ("timestamp", JNum 1699990000)];
     JObj [("text", JStr "growth")]]
  = Some [JObj [("text", JStr "Our DIGITAL roadmap"); ("timestamp", JNum 1699990000)]] /\
  exists l, filter_recent_relevant_posts 1700000000
              [JObj [("text", JStr "Our DIGITAL roadmap"); ("timestamp", JNum 1699990000)]]
            = Some l.
Proof.
  assert (H : (thirty_days < 1700000000)%Z) by (unfold thirty_days; lia).
  split; [exact H|]. split; [|split; [reflexivity|]].
  - destruct (filter_recent_relevant_posts_contract 1700000000
                [JObj [("text", JStr "Our digital strategy for 2024");
                       ("timestamp", JStr "2023-11-14T10:00:00");
                       ("url", JStr ""); ("stats", JObj []); ("post_type", JStr "regular")]] H)
      as [Hraise _].
    apply Hraise. eexists. split; [left; reflexivity | reflexivity].
  - destruct (filter_recent_relevant_posts_contract 1700000000
                [JObj [("text", JStr "Our DIGITAL roadmap"); ("timestamp", JNum 1699990000)]] H)
      as [_ [Htot _]].
    exact (Htot eq_refl).
Defined.

End PostFilterFacts.

Module PollerBudgetFacts.
Import Poller.
Local Open Scope list_scope.

(** The calls one attempt makes: a status check, then possibly a dataset
    fetch, then possibly a 10 second sleep. *)
Definition attempt_logs : list (list call) :=
  [[StatusGet; Sleep 10]; [StatusGet]; [StatusGet; DatasetGet; Sleep 10]; [StatusGet; DatasetGet]].

Ltac attempt_log_case :=
  eexists; split; [cbn; rewrite <- ?app_assoc; reflexivity | cbn; tauto].

Lemma attempt_log : forall w,
  exists t, calls (snd (attempt w)) = calls w ++ t /\ In t attempt_logs.
Proof.
  intros [sr dr cl]. unfold attempt, bind, get_status, get_dataset, sleep, ret, pop.
  destruct sr as [|r sr']; cbn -[is_str is_failure]; [attempt_log_case|].
  destruct (read_status r) as [| |cur]; cbn -[is_str is_failure]; [attempt_log_case|attempt_log_case|].
  destruct (is_str cur "SUCCEEDED").
  - destruct dr as [|d dr']; cbn -[is_str is_failure]; [attempt_log_case|].
    destruct d as [b|code body]; cbn -[is_str is_failure]; [attempt_log_case|].
    destruct (Z.eqb code 200); [|attempt_log_case].
    destruct body as [items|]; [|attempt_log_case].
    destruct items as [| | | |[|x xs]|kv]; attempt_log_case.
  - destruct (is_failure cur); [attempt_log_case|].
    destruct (is_str cur "RUNNING"); attempt_log_case.
Qed.

Lemma attempt_log_bounds : forall t, In t attempt_logs ->
  status_checks t = 1 /\ dataset_fetches t <= 1 /\ (slept t <= 10)%Z /\
  (forall s, In (Sleep s) t -> s = 10%Z).
Proof.
  intros t Ht. unfold attempt_logs in Ht.
  destruct Ht as [<- | [<- | [<- | [<- | []]]]]; cbn;
    (split; [reflexivity|]; split; [lia|]; split; [lia|]);
    intros s Hs; cbn in Hs; intuition congruence.
Qed.

Lemma poll_loop_log : forall n w,
  exists t, calls (snd (poll_loop n w)) = calls w ++ t /\
    status_checks t <= n /\ dataset_fetches t <= status_checks t /\
    (slept t <= 10 * Z.of_nat (status_checks t))%Z /\
    (forall s, In (Sleep s) t -> s = 10%Z).
Proof.
  induction n as [|n IH]; intros w.
  - exists []. rewrite app_nil_r. cbn. repeat split; try lia; intros s [].
  - cbn [poll_loop]. unfold bind at 1.
    destruct (attempt_log w) as (t1 & Ht1 & Hin).
    destruct (attempt_log_bounds t1 Hin) as (Hs1 & Hd1 & Hz1 & Hw1).
    destruct (attempt w) as [st w']. simpl in Ht1.
    destruct st as [v|].
    + exists t1. unfold ret. cbn [fst snd]. split; [exact Ht1|]. rewrite Hs1.
      split; [lia|]. split; [lia|]. split; [lia | exact Hw1].
    + destruct (IH w') as (t2 & Ht2 & Hs2 & Hd2 & Hz2 & Hw2).
      exists (t1 ++ t2). rewrite Ht2, Ht1, app_assoc.
      rewrite PollerFacts.status_checks_app, PollerFacts.dataset_fetches_app,
              PollerFacts.slept_app.
      split; [reflexivity|]. rewrite Hs1.
      repeat split; try lia.
      intros s Hs. apply in_app_or in Hs as [Hs|Hs]; auto.
Qed.

(** The source of a returned item: the first item of a non-empty list, or
    an object, sent by the dataset endpoint with status 200. *)
Definition delivered (v : json) (dr : list reply) : Prop :=
  (exists xs, In (Reply 200 (Some (JArr (v :: xs)))) dr) \/
  (exists kv, v = JObj kv /\ In (Reply 200 (Some v)) dr).

Lemma attempt_delivered : forall w,
  (forall x, In x (dataset_replies (snd (attempt w))) -> In x (dataset_replies w)) /\
  (forall v, fst (attempt w) = Return (Some v) -> delivered v (dataset_replies w)).
Proof.
  intros [sr dr cl]. unfold attempt, bind, get_status, get_dataset, sleep, ret, pop.
  destruct sr as [|r sr']; cbn -[is_str is_failure];
    [split; [auto | intros v H; discriminate]|].
  destruct (read_status r) as [| |cur]; cbn -[is_str is_failure];
    [split; [auto | intros v H; discriminate]|split; [auto | intros v H; discriminate]|].
  destruct (is_str cur "SUCCEEDED").
  - destruct dr as [|d dr']; cbn -[is_str is_failure]; [split; [auto | intros v H; discriminate]|].
    destruct d as [b|code body]; cbn -[is_str is_failure];
      [split; [simpl; auto | intros v H; discriminate]|].
    destruct (Z.eqb code 200) eqn:Hc; [|split; [simpl; auto | intros v H; discriminate]].
    apply Z.eqb_eq in Hc; subst code.
    destruct body as [items|]; [|split; [simpl; auto | intros v H; discriminate]].
    destruct items as [| | | |[|x xs]|kv]; cbn;
      try (split; [simpl; auto | intros v H; discriminate]).
    + split; [simpl; auto|]. intros v H. injection H as <-.
      left. exists xs. left. reflexivity.
    + split; [simpl; auto|]. intros v H. injection H as <-.
      right. exists kv. split; [reflexivity | left; reflexivity].
  - destruct (is_failure cur); [split; [auto | intros v H; discriminate]|].
    destruct (is_str cur "RUNNING"); cbn; split; auto; intros v H; discriminate.
Qed.

Lemma delivered_mono : forall v dr dr',
  (forall x, In x dr' -> In x dr) -> delivered v dr' -> delivered v dr.
Proof.
  intros v dr dr' Hsub [(xs & H) | (kv & Hv & H)]; [left; eauto | right; eauto].
Qed.

Lemma poll_loop_delivered : forall n w v,
  fst (poll_loop n w) = Some v -> delivered v (dataset_replies w).
Proof.
  induction n as [|n IH]; intros w v H; [discriminate|].
  cbn [poll_loop] in H. unfold bind at 1 in H.
  destruct (attempt_delivered w) as [Hsub Hret].
  destruct (attempt w) as [st w'] eqn:Ha. simpl in Hsub, Hret.
  destruct st as [r|].
  - unfold ret in H. simpl in H. subst r. apply Hret. reflexivity.
  - apply (delivered_mono v _ _ Hsub). apply IH. exact H.
Qed.

(** Whatever the replies, one poll makes at most 60 status checks, at
    most one dataset fetch per status check, and only 10 second sleeps,
    at most one per status check: at most 600 seconds of sleep in all. *)
Theorem poll_call_budget : forall w,
  exists t, calls (snd (poll_apify_run_with_status w)) = calls w ++ t /\
    status_checks t <= 60 /\ dataset_fetches t <= status_checks t /\
    (slept t <= 600)%Z /\ (forall s, In (Sleep s) t -> s = 10%Z).
Proof.
  intros w. destruct (poll_loop_log max_attempts w) as (t & Ht & Hs & Hd & Hz & Hw).
  exists t. unfold max_attempts in Hs. repeat split; auto; lia.
Qed.

(** A value the poller returns was sent by the dataset endpoint with
    status 200: it is the first item of a non-empty list, or it is an
    object sent as the whole body. *)
Theorem poll_result_was_delivered : forall w v,
  fst (poll_apify_run_with_status w) = Some v ->
  (exists xs, In (Reply 200 (Some (JArr (v :: xs)))) (dataset_replies w)) \/
  (exists kv, v = JObj kv /\ In (Reply 200 (Some v)) (dataset_replies w)).
Proof.
  intros w v H. exact (poll_loop_delivered max_attempts w v H).
Qed.

Lemma poll_result_was_delivered_witness :
  fst (poll_apify_run_with_status
         (start [status_reply "SUCCEEDED"] [Reply 200 (Some (JObj [("fullname", JStr "Ada")]))]))
  = Some (JObj [("fullname", JStr "Ada")]) /\
  ((exists xs, In (Reply 200 (Some (JArr (JObj [("fullname", JStr "Ada")] :: xs))))
                  [Reply 200 (Some (JObj [("fullname", JStr "Ada")]))]) \/
   (exists kv, JObj [("fullname", JStr "Ada")] = JObj kv /\
               In (Reply 200 (Some (JObj [("fullname", JStr "Ada")])))
                  [Reply 200 (Some (JObj [("fullname", JStr "Ada")]))])).
Proof.
  assert (H : fst (poll_apify_run_with_status
                     (start [status_reply "SUCCEEDED"]
                            [Reply 200 (Some (JObj [("fullname", JStr "Ada")]))]))
              = Some (JObj [("fullname", JStr "Ada")])) by reflexivity.
  split; [exact H|].
  exact (poll_result_was_delivered _ _ H).
Defined.

End PollerBudgetFacts.

Module PostFilterExtraFacts.
Import Preds PostFilter.

Lemma forallb_false_exists : forall (f : json -> bool) l,
  forallb f l = false -> exists x, In x l /\ f x = false.
Proof.
  intros f l. induction l as [|a l IH]; simpl; [discriminate|]. intros H.
  destruct (f a) eqn:Ha; simpl in H.
  - destruct (IH H) as (x & Hx & Hf). exists x. auto.
  - exists a. auto.
Qed.

Lemma filter_loop_complete : forall b posts l,
  filter_loop b posts = Some l ->
  forall kv t ts, In (JObj kv) posts ->
    assoc "text" kv = Some (JStr t) -> assoc "timestamp" kv = Some ts ->
    py_lt ts b = Some false ->
    any_keyword include_keywords (PyStr.lower t) = true ->
    any_keyword exclude_keywords (PyStr.lower t) = false ->
    In (JObj kv) l.
Proof.
  intros b posts. induction posts as [|q posts IH]; intros l H kv t ts Hin Ht Hts Hlt Hinc Hexc;
    [destruct Hin|].
  destruct Hin as [-> | Hin].
  - cbn [filter_loop py_get] in H. rewrite Ht, Hts, Hlt, Hinc, Hexc in H.
    simpl in H. destruct (filter_loop b posts); [|discriminate].
    injection H as <-. left. reflexivity.
  - cbn [filter_loop] in H.
    destruct q as [| | | | |kv']; try (exact (IH l H kv t ts Hin Ht Hts Hlt Hinc Hexc)).
    destruct (py_get (JObj kv') "text" (JStr "")) as [[| | |t'| |]|]; try discriminate.
    destruct (py_get (JObj kv') "timestamp" (JNum 0)) as [ts'|]; [|discriminate].
    destruct (py_lt ts' b) as [[|]|]; [exact (IH l H kv t ts Hin Ht Hts Hlt Hinc Hexc)| |discriminate].
    destruct (_ && _); [|exact (IH l H kv t ts Hin Ht Hts Hlt Hinc Hexc)].
    destruct (filter_loop b posts) as [l'|] eqn:Hl'; [|discriminate].
    injection H as <-. right. exact (IH l' eq_refl kv t ts Hin Ht Hts Hlt Hinc Hexc).
Qed.

(** [filter_recent_relevant_posts] raises exactly when one of the posts is
    a dict whose ["text"] is present and not a string, or whose
    ["timestamp"] is present and not a number; it raises on no other
    input, whatever the current time. *)
Theorem filter_raises_iff_ill_typed_post : forall now posts,
  filter_recent_relevant_posts now posts = None <->
  exists p, In p posts /\ well_typed_post p = false.
Proof.
  intros now posts. split.
  - intros H.
    destruct (forallb well_typed_post posts) eqn:Hall.
    + destruct (PostFilterFacts.filter_loop_total (now - 30 * 24 * 60 * 60)%Z posts Hall) as [l Hl].
      unfold filter_recent_relevant_posts in H. congruence.
    + exact (forallb_false_exists _ posts Hall).
  - intros (p & Hin & Hp).
    destruct (filter_recent_relevant_posts now posts) as [l|] eqn:Hl; [|reflexivity].
    apply PostFilterFacts.filter_loop_some_well_typed in Hl.
    rewrite forallb_forall in Hl. rewrite (Hl p Hin) in Hp. discriminate.
Qed.

(** When the filter returns, every dict post with a string ["text"], a number
    ["timestamp"] no older than 30 days, an include keyword and no
    exclude keyword is in the returned list. *)
Theorem filter_keeps_every_relevant_post : forall now posts l,
  filter_recent_relevant_posts now posts = Some l ->
  forall kv t ts, In (JObj kv) posts ->
    assoc "text" kv = Some (JStr t) -> assoc "timestamp" kv = Some ts ->
    py_lt ts (now - thirty_days) = Some false ->
    any_keyword include_keywords (PyStr.lower t) = true ->
    any_keyword exclude_keywords (PyStr.lower t) = false ->
    In (JObj kv) l.
Proof.
  intros now posts l H. exact (filter_loop_complete _ posts l H).
Qed.

Lemma filter_keeps_every_relevant_post_witness :
  In (JObj [("text", JStr "Our DIGITAL roadmap"); ("timestamp", JNum 1699990000)])
     [JObj [("text", JStr "Our DIGITAL roadmap"); ("timestamp", JNum 1699990000)]].
Proof.
  exact (filter_keeps_every_relevant_post 1700000000
           [JObj [("text", JStr "Our DIGITAL roadmap"); ("timestamp", JNum 1699990000)]]
           [JObj [("text", JStr "Our DIGITAL roadmap"); ("timestamp", JNum 1699990000)]]
           eq_refl
           [("text", JStr "Our DIGITAL roadmap"); ("timestamp", JNum 1699990000)]
           "Our DIGITAL roadmap" (JNum 1699990000)
           (or_introl eq_refl) eq_refl eq_refl eq_refl eq_refl eq_refl).
Defined.

End PostFilterExtraFacts.

Module MessageExtraFacts.
Import Preds Messages.

Definition in_range_prop (m : string) : Prop :=
  250 <= String.length m <= 300.

Lemma in_range_true : forall m, in_range m = true -> in_range_prop m.
Proof.
  intros m H. unfold in_range in H. apply andb_prop in H as [H1 H2].
  apply Nat.leb_le in H1. apply Nat.leb_le in H2. split; assumption.
Qed.

Lemma validate_in_range : forall v sfn m,
  Forall (fun x => in_range x = true) (validate v sfn m).
Proof.
  intros v sfn m. unfold validate.
  destruct (String.eqb m ""); [constructor|].
  repeat match goal with
         | |- context [if in_range ?x then _ else _] => destruct (in_range x) eqn:?
         end;
    repeat constructor; assumption.
Qed.

Lemma forall_flat_map_validate : forall v sfn l,
  Forall (fun x => in_range x = true) (flat_map (validate v sfn) l).
Proof.
  intros v sfn l. induction l as [|m l IH]; simpl; [constructor|].
  apply Forall_app. split; [apply validate_in_range | exact IH].
Qed.

Lemma topup_body_fold_in_range : forall templates acc,
  Forall (fun x => in_range x = true) acc ->
  Forall (fun x => in_range x = true)
    (fold_left (fun acc t => if Nat.ltb (List.length acc) 3 && in_range t then app acc [t] else acc)
               templates acc).
Proof.
  induction templates as [|t ts IH]; intros acc H; simpl; [exact H|].
  apply IH. destruct (Nat.ltb (List.length acc) 3 && in_range t) eqn:Hc; [|exact H].
  apply andb_prop in Hc as [_ Ht].
  apply Forall_app. split; [exact H | constructor; [exact Ht | constructor]].
Qed.

Lemma topup_in_range : forall fuel templates vm vm',
  Forall (fun x => in_range x = true) vm ->
  topup fuel templates vm = Done vm' ->
  Forall (fun x => in_range x = true) vm'.
Proof.
  induction fuel as [|fuel IH]; intros templates vm vm' H Ht; simpl in Ht.
  - destruct (Nat.ltb (List.length vm) 3); [discriminate | injection Ht as <-; exact H].
  - destruct (Nat.ltb (List.length vm) 3).
    + apply (IH templates (topup_body templates vm)); [|exact Ht].
      apply topup_body_fold_in_range. exact H.
    + injection Ht as <-. exact H.
Qed.

Lemma forall_firstn : forall (P : string -> Prop) n l,
  Forall P l -> Forall P (firstn n l).
Proof.
  intros P n l. revert n. induction l as [|x l IH]; intros n H; destruct n; simpl;
    try constructor.
  - inversion H; subst; assumption.
  - inversion H; subst. apply IH. assumption.
Qed.

Definition topup_step (acc : list string) (t : string) : list string :=
  if Nat.ltb (List.length acc) 3 && in_range t then app acc [t] else acc.

Lemma topup_body_fold_grows : forall templates acc,
  List.length acc <= List.length (fold_left topup_step templates acc) /\
  (existsb in_range templates = true -> List.length acc < 3 ->
   List.length acc < List.length (fold_left topup_step templates acc)).
Proof.
  intros templates. induction templates as [|t ts IH]; intros acc; simpl.
  - split; [lia | discriminate].
  - destruct (IH (topup_step acc t)) as [Hm Hg].
    assert (Hf : List.length acc <= List.length (topup_step acc t)).
    { unfold topup_step. destruct (_ && _); [rewrite length_app; simpl; lia | lia]. }
    split; [lia|].
    intros He Hlt.
    destruct (in_range t) eqn:Ht.
    + assert (Hs : List.length (topup_step acc t) = S (List.length acc)).
      { unfold topup_step. replace (Nat.ltb (List.length acc) 3) with true
          by (symmetry; apply Nat.ltb_lt; exact Hlt).
        rewrite Ht. simpl. rewrite length_app. simpl. lia. }
      lia.
    + simpl in He.
      assert (Hfa : topup_step acc t = acc)
        by (unfold topup_step; rewrite Ht, andb_false_r; reflexivity).
      rewrite Hfa in Hm, Hg |- *. apply Hg; assumption.
Qed.

Lemma topup_exits : forall templates fuel vm,
  existsb in_range templates = true -> 3 - List.length vm <= fuel ->
  exists vm', topup fuel templates vm = Done vm' /\ 3 <= List.length vm'.
Proof.
  intros templates fuel. induction fuel as [|fuel IH]; intros vm He Hf; simpl.
  - replace (Nat.ltb (List.length vm) 3) with false by (symmetry; apply Nat.ltb_ge; lia).
    exists vm. split; [reflexivity | lia].
  - destruct (Nat.ltb (List.length vm) 3) eqn:Hl.
    + apply Nat.ltb_lt in Hl. apply IH; [exact He|].
      destruct (topup_body_fold_grows templates vm) as [_ Hg].
      specialize (Hg He Hl). unfold topup_body. fold topup_step. lia.
    + apply Nat.ltb_ge in Hl. exists vm. split; [reflexivity | exact Hl].
Qed.

Lemma topup_body_no_template : forall templates vm,
  existsb in_range templates = false -> topup_body templates vm = vm.
Proof.
  intros templates vm. unfold topup_body. revert vm.
  induction templates as [|t ts IH]; intros vm H; simpl; [reflexivity|].
  simpl in H. apply orb_false_iff in H as [Ht Hts].
  rewrite Ht, andb_false_r. apply IH. exact Hts.
Qed.

(** When the completion answers 200 with a string content, every message
    returned is between 250 and 300 characters long, and there are at
    most three of them. *)
Theorem completion_messages_within_limits : forall fuel prospect_data sender_info body c l,
  Brief.completion_content body = Some (JStr c) ->
  analyze_and_generate_message fuel prospect_data sender_info (Reply 200 body) = Done l ->
  List.length l <= 3 /\ Forall (fun m => 250 <= String.length m <= 300) l.
Proof.
  intros fuel pd si body c l Hc H.
  unfold analyze_and_generate_message in H.
  destruct (sender_first_name si) as [sfn|]; [|discriminate].
  simpl Z.eqb in H. cbv iota in H. rewrite Hc in H.
  destruct (topup fuel _ _) as [vm| |] eqn:Ht; try discriminate.
  replace l with (firstn 3 vm) by congruence.
  split; [apply firstn_le_length|].
  apply forall_firstn.
  apply (Forall_impl _ in_range_true).
  exact (topup_in_range _ _ _ _ (forall_flat_map_validate _ _ _) Ht).
Qed.

(** When one of the three top-up templates is 250 to 300 characters long,
    the [while] loop exits within three iterations and the completion
    path returns exactly three messages. *)
Theorem topup_exits_with_three : forall fuel prospect_data sender_info body c sfn,
  3 <= fuel ->
  Brief.completion_content body = Some (JStr c) ->
  sender_first_name sender_info = Some sfn ->
  existsb in_range (topup_templates (extract_prospect prospect_data) sfn) = true ->
  exists l, analyze_and_generate_message fuel prospect_data sender_info (Reply 200 body) = Done l /\
            List.length l = 3.
Proof.
  intros fuel pd si body c sfn Hf Hc Hs He.
  unfold analyze_and_generate_message. rewrite Hs.
  simpl Z.eqb. cbv iota. rewrite Hc.
  destruct (topup_exits _ fuel
              (flat_map (validate (extract_prospect pd) sfn) (parse_options (PyStr.strip c))) He)
    as (vm & Hvm & Hlen); [lia|].
  rewrite Hvm. exists (firstn 3 vm). split; [reflexivity|].
  rewrite length_firstn. lia.
Qed.

Definition long_role_prospect : json :=
  JObj [("fullname", JStr "Ada Lovelace");
        ("experience", JArr [JObj [("title", JStr "Senior Vice President of Digital Transformation and Enterprise Cloud Strategy, EMEA");
                                   ("company", JStr "Analytical Engines")]])].

Lemma topup_exits_with_three_witness :
  existsb in_range (topup_templates (extract_prospect long_role_prospect) "Professional") = true /\
  exists l, analyze_and_generate_message 3 long_role_prospect (JObj []) (completion_reply "Sorry.")
            = Done l /\ List.length l = 3.
Proof.
  split; [reflexivity|].
  exact (topup_exits_with_three 3 long_role_prospect (JObj [])
           (Some (JObj [("choices", JArr [JObj [("message", JObj [("content", JStr "Sorry.")])]])]))
           "Sorry." "Professional" (le_n 3) eq_refl eq_refl eq_refl).
Defined.

Lemma completion_messages_within_limits_witness :
  Brief.completion_content
    (Some (JObj [("choices", JArr [JObj [("message", JObj [("content", JStr "Sorry.")])]])]))
  = Some (JStr "Sorry.") /\
  exists l, analyze_and_generate_message 3 long_role_prospect (JObj []) (completion_reply "Sorry.")
            = Done l /\ List.length l <= 3 /\ Forall (fun m => 250 <= String.length m <= 300) l.
Proof.
  split; [reflexivity|].
  assert (H : analyze_and_generate_message 3 long_role_prospect (JObj []) (completion_reply "Sorry.")
              = Done (repeat
                  ("Hi Ada," ++ nl ++ "Your role in Senior Vice President of Digital Transformation and Enterprise Cloud Strategy, EMEA demonstrates expertise in professional growth." ++ nl ++
                   "I focus on similar advancements in business technology - would be great to connect." ++ nl ++
                   "Best," ++ nl ++ "Professional") 3)) by (vm_compute; reflexivity).
  eexists. split; [exact H|].
  exact (completion_messages_within_limits 3 long_role_prospect (JObj [])
           (Some (JObj [("choices", JArr [JObj [("message", JObj [("content", JStr "Sorry.")])]])]))
           "Sorry." _ eq_refl H).
Defined.

Lemma topup_step_fold_one : forall templates t acc,
  filter in_range templates = [t] -> List.length acc < 3 ->
  fold_left topup_step templates acc = app acc [t].
Proof.
  induction templates as [|x xs IH]; intros t acc Hf Hl; simpl in Hf; [discriminate|].
  simpl. destruct (in_range x) eqn:Hx.
  - injection Hf as -> Hxs.
    unfold topup_step at 2. replace (Nat.ltb (List.length acc) 3) with true
      by (symmetry; apply Nat.ltb_lt; exact Hl).
    rewrite Hx. simpl.
    assert (Hnone : existsb in_range xs = false).
    { destruct (existsb in_range xs) eqn:E; [|reflexivity].
      apply existsb_exists in E as (y & Hy & Hr).
      assert (In y (filter in_range xs)) by (apply filter_In; split; assumption).
      rewrite Hxs in H. contradiction. }
    pose proof (topup_body_no_template xs (app acc [t]) Hnone) as Hb.
    unfold topup_body in Hb. fold topup_step in Hb. exact Hb.
  - unfold topup_step at 2. rewrite Hx, andb_false_r. apply IH; assumption.
Qed.

(** When none of the parsed options passes validation and exactly one
    top-up template is 250 to 300 characters long, the [while] loop adds
    that template once per iteration: the three options returned are the
    same message. *)
Theorem topup_repeats_single_template : forall fuel prospect_data sender_info body c sfn t,
  3 <= fuel ->
  Brief.completion_content body = Some (JStr c) ->
  sender_first_name sender_info = Some sfn ->
  flat_map (validate (extract_prospect prospect_data) sfn) (parse_options (PyStr.strip c)) = [] ->
  filter in_range (topup_templates (extract_prospect prospect_data) sfn) = [t] ->
  analyze_and_generate_message fuel prospect_data sender_info (Reply 200 body) = Done [t; t; t].
Proof.
  intros fuel pd si body c sfn t Hf Hc Hs Hv Ht.
  unfold analyze_and_generate_message. rewrite Hs.
  simpl Z.eqb. cbv iota. rewrite Hc. rewrite Hv.
  destruct fuel as [|[|[|fuel]]]; try lia.
  cbn [topup]. unfold topup_body. fold topup_step.
  rewrite (topup_step_fold_one _ t [] Ht) by (simpl; lia).
  cbn [List.length app Nat.ltb Nat.leb].
  rewrite (topup_step_fold_one _ t [t] Ht) by (simpl; lia).
  cbn [List.length app Nat.ltb Nat.leb].
  rewrite (topup_step_fold_one _ t [t; t] Ht) by (simpl; lia).
  destruct fuel; reflexivity.
Qed.

Lemma topup_repeats_single_template_witness :
  exists t, analyze_and_generate_message 3 long_role_prospect (JObj []) (completion_reply "Sorry.")
            = Done [t; t; t].
Proof.
  eexists.
  apply (topup_repeats_single_template 3 long_role_prospect (JObj [])
           (Some (JObj [("choices", JArr [JObj [("message", JObj [("content", JStr "Sorry.")])]])]))
           "Sorry." "Professional"); [lia | reflexivity | reflexivity | vm_compute; reflexivity |].
  vm_compute. reflexivity.
Defined.

(** Conversely, when no top-up template is 250
    to 300 characters long and fewer than three options pass validation,
    the [while] loop never exits, whatever the number of iterations. *)
Theorem topup_never_exits_without_usable_template : forall fuel prospect_data sender_info body c sfn,
  Brief.completion_content body = Some (JStr c) ->
  sender_first_name sender_info = Some sfn ->
  existsb in_range (topup_templates (extract_prospect prospect_data) sfn) = false ->
  List.length (flat_map (validate (extract_prospect prospect_data) sfn)
                        (parse_options (PyStr.strip c))) < 3 ->
  analyze_and_generate_message fuel prospect_data sender_info (Reply 200 body) = OutOfFuel.
Proof.
  intros fuel pd si body c sfn Hc Hs He Hl.
  unfold analyze_and_generate_message. rewrite Hs.
  simpl Z.eqb. cbv iota. rewrite Hc.
  rewrite MessageFacts.topup_stuck; [reflexivity | exact Hl |].
  apply topup_body_no_template. exact He.
Qed.

Lemma topup_never_exits_without_usable_template_witness :
  analyze_and_generate_message 1000 (JObj [("fullname", JStr "Grace Hopper")]) (JObj [])
    (completion_reply "Option 1: Hi Grace, great post!") = OutOfFuel.
Proof.
  apply (topup_never_exits_without_usable_template 1000 (JObj [("fullname", JStr "Grace Hopper")])
           (JObj []) (Some (JObj [("choices", JArr [JObj [("message",
              JObj [("content", JStr "Option 1: Hi Grace, great post!")])]])]))
           "Option 1: Hi Grace, great post!" "Professional");
    first [reflexivity | vm_compute; lia].
Defined.

End MessageExtraFacts.

Module UsernameFacts.
Import Username.

(** *** String lemmas *)

Lemma str_app_assoc : forall x y z : string, (x ++ y) ++ z = x ++ (y ++ z).
Proof. induction x as [|c x IH]; intros y z; simpl; [reflexivity | rewrite IH; reflexivity]. Qed.

Lemma str_app_nil_r : forall x : string, x ++ "" = x.
Proof. induction x as [|c x IH]; simpl; [reflexivity | rewrite IH; reflexivity]. Qed.

Lemma str_length_app : forall x y : string,
  String.length (x ++ y) = String.length x + String.length y.
Proof. induction x as [|c x IH]; intros y; simpl; [reflexivity | rewrite IH; reflexivity]. Qed.

Lemma prefix_self_app : forall p t, String.prefix p (p ++ t) = true.
Proof.
  induction p as [|c p IH]; intros t; [destruct t; reflexivity|]. simpl.
  destruct (ascii_dec c c) as [_|n]; [apply IH | exfalso; apply n; reflexivity].
Qed.

Lemma prefix_false_app : forall p x y,
  String.prefix p x = false -> String.length p <= String.length x ->
  String.prefix p (x ++ y) = false.
Proof.
  induction p as [|c p IH]; intros x y H Hl; [destruct x; discriminate|]. simpl in *.
  destruct x as [|d x]; simpl in *; [lia|].
  destruct (ascii_dec c d); [apply IH; [exact H | lia] | reflexivity].
Qed.

Lemma substring_0_all : forall t m, String.length t <= m -> substring 0 m t = t.
Proof.
  induction t as [|c t IH]; intros m Hm; simpl in *.
  - destruct m; reflexivity.
  - destruct m as [|m]; [lia|]. rewrite IH; [reflexivity | lia].
Qed.

Lemma substring_after_prefix : forall p t m,
  String.length t <= m -> substring (String.length p) m (p ++ t) = t.
Proof.
  induction p as [|c p IH]; intros t m Hm; simpl; [apply substring_0_all; exact Hm | apply IH; exact Hm].
Qed.

Lemma rev_str_app : forall x y,
  PyStr.rev_str (x ++ y) = PyStr.rev_str y ++ PyStr.rev_str x.
Proof.
  induction x as [|c x IH]; intros y; simpl.
  - rewrite str_app_nil_r. reflexivity.
  - rewrite IH, str_app_assoc. reflexivity.
Qed.

Lemma rev_str_involutive : forall x, PyStr.rev_str (PyStr.rev_str x) = x.
Proof.
  induction x as [|c x IH]; simpl; [reflexivity|].
  rewrite rev_str_app, IH. reflexivity.
Qed.

Lemma contains_app_r : forall p x y,
  PyStr.contains p y = true -> PyStr.contains p (x ++ y) = true.
Proof.
  induction x as [|c x IH]; intros y H; simpl; [exact H|].
  rewrite IH; [apply orb_true_r | exact H].
Qed.

Lemma contains_of_prefix : forall p s, String.prefix p s = true -> PyStr.contains p s = true.
Proof.
  intros p s H.
  assert (E : PyStr.contains p s
              = String.prefix p s || match s with "" => false | String _ s' => PyStr.contains p s' end)
    by (destruct s; reflexivity).
  rewrite E, H. reflexivity.
Qed.

Lemma contains_self_app : forall p x t, PyStr.contains p (x ++ p ++ t) = true.
Proof.
  intros p x t. apply contains_app_r, contains_of_prefix, prefix_self_app.
Qed.

(** A text whose characters all differ from the first character of [p]
    cannot hold an occurrence of [p] that starts inside it. *)
Lemma contains_skip : forall c p x y,
  PyStr.contains (String c "") x = false ->
  PyStr.contains (String c p) (x ++ y) = PyStr.contains (String c p) y.
Proof.
  induction x as [|d x IH]; intros y H; [reflexivity|].
  revert H. simpl. destruct (ascii_dec c d) as [e|n].
  - destruct x; discriminate.
  - simpl. apply IH.
Qed.

Lemma contains_char_head : forall c d s,
  PyStr.contains (String c "") (String d s) = false -> c <> d.
Proof.
  intros c d s H ->. revert H. simpl. destruct (ascii_dec d d) as [_|n];
    [destruct s; discriminate | exfalso; apply n; reflexivity].
Qed.

Lemma str_snoc : forall s, s <> "" -> exists x c, s = x ++ String c "".
Proof.
  induction s as [|d s IH]; intros H; [congruence|].
  destruct s as [|e s].
  - exists "", d. reflexivity.
  - destruct IH as (x & c & E); [discriminate|].
    exists (String d x), c. rewrite E. reflexivity.
Qed.

(** *** [str.split] *)

(** Without an occurrence of the separator, [split] gives one piece. *)
Lemma split_aux_none : forall sep fuel s cur,
  sep <> "" -> PyStr.contains sep s = false ->
  PyStr.split_aux sep fuel s cur = [cur ++ s].
Proof.
  intros sep fuel. induction fuel as [|fuel IH]; intros s cur Hs H; [reflexivity|].
  cbn [PyStr.split_aux]. destruct s as [|c s].
  - destruct sep; [congruence|]. simpl. rewrite str_app_nil_r. reflexivity.
  - cbn [PyStr.contains] in H. apply orb_false_iff in H as [Hp Hc]. rewrite Hp.
    rewrite IH; [rewrite str_app_assoc; reflexivity | exact Hs | exact Hc].
Qed.

(** The first piece ends at the first occurrence of the separator: an
    occurrence starting inside [a] would lie inside [a ++ sep_init]. *)
Lemma split_aux_at : forall sep sep_init lc t a fuel cur,
  sep = sep_init ++ String lc "" ->
  PyStr.contains sep (a ++ sep_init) = false ->
  String.length a < fuel ->
  PyStr.split_aux sep fuel (a ++ sep ++ t) cur
  = (cur ++ a) :: PyStr.split_aux sep (fuel - S (String.length a)) t "".
Proof.
  intros sep sep_init lc t a. revert sep_init lc t.
  induction a as [|c a IH]; intros sep_init lc t fuel cur Hsep H Hf;
    (destruct fuel as [|fuel]; [simpl in Hf; lia|]).
  - cbn [PyStr.split_aux String.append].
    rewrite prefix_self_app, substring_after_prefix, str_app_nil_r;
      [f_equal; f_equal; simpl; lia | rewrite str_length_app; lia].
  - simpl in H. apply orb_false_iff in H as [Hp Hc].
    cbn [PyStr.split_aux].
    replace (String.prefix sep (String c a ++ sep ++ t)) with false.
    2:{ symmetry.
        replace (String c a ++ sep ++ t) with (String c (a ++ sep_init) ++ String lc t)
          by (rewrite Hsep; simpl; rewrite !str_app_assoc; reflexivity).
        apply prefix_false_app; [exact Hp|].
        rewrite Hsep. simpl. rewrite ?str_app_assoc, !str_length_app. simpl. lia. }
    cbn [String.append].
    rewrite (IH sep_init lc t fuel (cur ++ String c "") Hsep Hc); [| simpl in Hf; lia].
    rewrite str_app_assoc. reflexivity.
Qed.

(** *** [str.strip("/")] *)

Lemma lstrip_app_stop : forall p c s1 s2,
  p c = false ->
  PyStr.lstrip_by p (s1 ++ String c s2) = PyStr.lstrip_by p s1 ++ String c s2.
Proof.
  induction s1 as [|d s1 IH]; intros s2 Hc; simpl; [rewrite Hc; reflexivity|].
  destruct (p d); [apply IH; exact Hc | reflexivity].
Qed.

Lemma rstrip_app_stop : forall p c x y,
  p c = false ->
  PyStr.rstrip_by p (x ++ String c y) = x ++ String c (PyStr.rstrip_by p y).
Proof.
  intros p c x y Hc. unfold PyStr.rstrip_by.
  rewrite rev_str_app. cbn [PyStr.rev_str]. rewrite str_app_assoc. cbn [String.append].
  rewrite lstrip_app_stop by exact Hc.
  rewrite rev_str_app. cbn [PyStr.rev_str]. rewrite rev_str_involutive, str_app_assoc.
  reflexivity.
Qed.

Lemma not_slash : forall c s, PyStr.contains "/" (String c s) = false -> is_slash c = false.
Proof.
  intros c s H. apply contains_char_head in H. unfold is_slash.
  destruct (Ascii.eqb_spec c "/"%char); congruence.
Qed.

Lemma lstrip_slashes_noop : forall u s,
  u <> "" -> PyStr.contains "/" u = false ->
  PyStr.lstrip_by is_slash (u ++ s) = u ++ s.
Proof.
  intros [|c u'] s Hu H; [congruence|]. simpl. rewrite (not_slash c u' H). reflexivity.
Qed.

Lemma strip_slashes_user : forall u s,
  u <> "" -> PyStr.contains "/" u = false -> (s = "" \/ s = "/") ->
  strip_slashes (u ++ s) = u.
Proof.
  intros u s Hu H Hs. unfold strip_slashes. rewrite lstrip_slashes_noop by assumption.
  destruct (str_snoc u Hu) as (x & c & E).
  assert (Hc : is_slash c = false).
  { unfold is_slash. destruct (Ascii.eqb_spec c "/"%char) as [->|]; [|reflexivity].
    rewrite E, contains_app_r in H; [discriminate | reflexivity]. }
  rewrite E, str_app_assoc. simpl. rewrite rstrip_app_stop by exact Hc.
  destruct Hs as [-> | ->]; reflexivity.
Qed.

Lemma strip_slashes_query : forall u r q,
  u <> "" -> PyStr.contains "/" u = false ->
  strip_slashes (u ++ r ++ String "?" q) = (u ++ r) ++ String "?" (PyStr.rstrip_by is_slash q).
Proof.
  intros u r q Hu H. unfold strip_slashes. rewrite lstrip_slashes_noop by assumption.
  rewrite <- str_app_assoc. apply rstrip_app_stop. reflexivity.
Qed.

(** *** The pieces of the URL *)

Lemma extract_after_in : forall a t,
  PyStr.contains "/in/" (a ++ "/in") = false -> PyStr.contains "/in/" t = false ->
  extract_username_from_url (a ++ "/in/" ++ t) = hd "" (PyStr.split "?" (strip_slashes t)).
Proof.
  intros a t Ha Ht. unfold extract_username_from_url.
  rewrite contains_self_app. unfold PyStr.split at 2.
  rewrite (split_aux_at "/in/" "/in" "/"%char t a); [| reflexivity | exact Ha |].
  2:{ rewrite !str_length_app. simpl. lia. }
  rewrite split_aux_none; [reflexivity | discriminate | exact Ht].
Qed.

Lemma hd_split_query_none : forall u,
  PyStr.contains "?" u = false -> hd "" (PyStr.split "?" u) = u.
Proof.
  intros u H. unfold PyStr.split. rewrite split_aux_none; [reflexivity | discriminate | exact H].
Qed.

Lemma hd_split_query_at : forall x y,
  PyStr.contains "?" x = false -> hd "" (PyStr.split "?" (x ++ String "?" y)) = x.
Proof.
  intros x y H. unfold PyStr.split.
  change (x ++ String "?" y) with (x ++ "?" ++ y).
  rewrite (split_aux_at "?" "" "?"%char y x); [reflexivity | reflexivity | |].
  - rewrite str_app_nil_r. exact H.
  - rewrite str_length_app. simpl. lia.
Qed.

Lemma no_in_after_user : forall u s,
  PyStr.contains "/" u = false -> PyStr.contains "/in/" (u ++ s) = PyStr.contains "/in/" s.
Proof. intros u s H. apply contains_skip. exact H. Qed.

(** *** Theorems *)

(** [extract_username_from_url] recovers the user name [u] of a profile
    URL [a/in/u], [a/in/u/] or [a/in/u?q], when [u] is a non-empty name
    without slash or question mark, the first "/in/" of the URL is the
    one before [u], and the query [q] holds no "/in/". *)
Theorem extract_username_round_trip : forall a u q,
  PyStr.contains "/in/" (a ++ "/in") = false ->
  u <> "" -> PyStr.contains "/" u = false -> PyStr.contains "?" u = false ->
  PyStr.contains "/in/" q = false ->
  extract_username_from_url (a ++ "/in/" ++ u) = u /\
  extract_username_from_url (a ++ "/in/" ++ u ++ "/") = u /\
  extract_username_from_url (a ++ "/in/" ++ u ++ "?" ++ q) = u.
Proof.
  intros a u q Ha Hu Hs Hq Hiq. split; [|split].
  - rewrite extract_after_in; [| exact Ha | rewrite <- (str_app_nil_r u), no_in_after_user by exact Hs; reflexivity].
    rewrite <- (str_app_nil_r u) at 1. rewrite strip_slashes_user by auto.
    apply hd_split_query_none. exact Hq.
  - rewrite extract_after_in; [| exact Ha | rewrite no_in_after_user by exact Hs; reflexivity].
    rewrite strip_slashes_user by auto.
    apply hd_split_query_none. exact Hq.
  - rewrite extract_after_in; [| exact Ha | rewrite no_in_after_user by exact Hs; simpl; exact Hiq].
    change (u ++ "?" ++ q) with (u ++ "" ++ String "?" q).
    rewrite strip_slashes_query by assumption. rewrite str_app_nil_r.
    apply hd_split_query_at. exact Hq.
Qed.

Lemma extract_username_round_trip_witness :
  extract_username_from_url "https://www.linkedin.com/in/john-doe" = "john-doe" /\
  extract_username_from_url "https://www.linkedin.com/in/john-doe/" = "john-doe" /\
  extract_username_from_url "https://www.linkedin.com/in/john-doe?trk=public" = "john-doe".
Proof.
  exact (extract_username_round_trip "https://www.linkedin.com" "john-doe" "trk=public"
           eq_refl ltac:(discriminate) eq_refl eq_refl eq_refl).
Defined.

(** A URL [a/in/u/?q], with the slash before the query that LinkedIn's
    share links carry, gives [u] followed by a slash: the slashes are
    stripped before the query is cut off. *)
Theorem extract_username_keeps_slash_before_query : forall a u q,
  PyStr.contains "/in/" (a ++ "/in") = false ->
  u <> "" -> PyStr.contains "/" u = false -> PyStr.contains "?" u = false ->
  PyStr.contains "/in/" q = false ->
  extract_username_from_url (a ++ "/in/" ++ u ++ "/?" ++ q) = u ++ "/".
Proof.
  intros a u q Ha Hu Hs Hq Hiq.
  rewrite extract_after_in; [| exact Ha | rewrite no_in_after_user by exact Hs; simpl; exact Hiq].
  change (u ++ "/?" ++ q) with (u ++ "/" ++ String "?" q).
  rewrite strip_slashes_query by assumption.
  apply hd_split_query_at. rewrite contains_skip by exact Hq. reflexivity.
Qed.

Lemma extract_username_keeps_slash_before_query_witness :
  extract_username_from_url "https://www.linkedin.com/in/john-doe/?originalSubdomain=uk"
  = "john-doe/".
Proof.
  exact (extract_username_keeps_slash_before_query "https://www.linkedin.com" "john-doe"
           "originalSubdomain=uk" eq_refl ltac:(discriminate) eq_refl eq_refl eq_refl).
Defined.

End UsernameFacts.

Module ScrapeFacts.
Import Scrape.

(** The shape of a post in the list that [scrape_linkedin_posts]
    returns. *)
Definition scraped_post (p : json) : Prop :=
  exists text ts url stats post_type,
    p = JObj [("text", text); ("timestamp", ts); ("url", url); ("stats", stats);
              ("post_type", post_type)] /\
    truthy text = true /\
    match text with
    | JStr s => String.length s <= 500
    | JArr l => List.length l <= 500
    | _ => False
    end.

Lemma take_length : forall n s, String.length (PyStr.take n s) <= n.
Proof.
  unfold PyStr.take. induction n as [|n IH]; intros [|c s]; simpl; try lia.
  specialize (IH s). lia.
Qed.

Lemma slice_shape : forall v text,
  truthy v = true -> py_slice 500 v = Some text ->
  truthy text = true /\
  match text with
  | JStr s => String.length s <= 500
  | JArr l => List.length l <= 500
  | _ => False
  end.
Proof.
  intros v text Hv Hs. destruct v as [| | |s|l|kv]; cbn [py_slice] in Hs; try discriminate;
    injection Hs as <-.
  - split; [|exact (take_length 500 s)].
    destruct s as [|c s]; [discriminate | reflexivity].
  - split; [|exact (firstn_le_length 500 l)].
    destruct l as [|x l]; [discriminate | reflexivity].
Qed.

Lemma valid_posts_shape : forall posts vp,
  valid_posts posts = Some vp -> Forall scraped_post vp.
Proof.
  induction posts as [|post rest IH]; intros vp H; simpl in H.
  - injection H as <-. constructor.
  - destruct post as [| | | | |kv]; try (apply IH; exact H).
    destruct (truthy _) eqn:Ht; [|apply IH; exact H].
    destruct (py_slice 500 _) as [text|] eqn:Hs; [|discriminate].
    destruct (valid_posts rest) as [l|]; [|discriminate].
    injection H as <-. constructor; [|apply IH; reflexivity].
    destruct (slice_shape _ _ Ht Hs) as [Htr Hlen].
    do 5 eexists. split; [reflexivity | split; [exact Htr | exact Hlen]].
Qed.

Lemma Forall_firstn_any : forall (A : Type) (P : A -> Prop) n l,
  Forall P l -> Forall P (firstn n l).
Proof.
  intros A P n l. revert n. induction l as [|x l IH]; intros [|n] H; simpl; try constructor.
  - inversion H; assumption.
  - apply IH. inversion H; assumption.
Qed.

Lemma insert_desc_perm : forall x s r,
  insert_desc x s = Some r -> Permutation (x :: s) r.
Proof.
  intros x s. induction s as [|y ys IH]; intros r H; simpl in H.
  - injection H as <-. reflexivity.
  - destruct (key_lt _ _) as [[|]|]; try discriminate.
    + injection H as <-. reflexivity.
    + destruct (insert_desc x ys) as [l|]; [|discriminate].
      injection H as <-. rewrite perm_swap. constructor. apply IH. reflexivity.
Qed.

Lemma sort_desc_aux_perm : forall l acc r,
  sort_desc_aux acc l = Some r -> Permutation (acc ++ l) r.
Proof.
  induction l as [|x l IH]; intros acc r H; simpl in H.
  - injection H as <-. rewrite app_nil_r. reflexivity.
  - destruct (insert_desc x acc) as [acc'|] eqn:Hi; [|discriminate].
    eapply Permutation_trans; [symmetry; apply Permutation_middle|].
    eapply Permutation_trans; [|apply (IH _ _ H)].
    change (x :: app acc l) with (app (x :: acc) l).
    apply Permutation_app_tail. apply insert_desc_perm. exact Hi.
Qed.

Lemma sort_by_timestamp_desc_perm : forall l l',
  sort_by_timestamp_desc l = Some l' -> Permutation l l'.
Proof. intros l l' H. exact (sort_desc_aux_perm l [] l' H). Qed.

(** Keys that [<] can compare: strings with strings, numbers (and
    booleans) with numbers. *)
Definition key_class (v : json) : option bool :=
  match v with
  | JStr _ => Some true
  | JNum _ | JBool _ => Some false
  | _ => None
  end.

Definition same_class (l : list json) : Prop :=
  forall a b, In a l -> In b l -> key_class (timestamp_key a) = key_class (timestamp_key b).

Lemma key_lt_class : forall a b c, key_lt a b = Some c -> key_class a = key_class b.
Proof. intros [| | | | |] [| | | | |] c H; simpl in H; try discriminate; reflexivity. Qed.

Lemma same_class_perm : forall l l', Permutation l l' -> same_class l' -> same_class l.
Proof.
  intros l l' P H a b Ha Hb.
  apply H; eapply Permutation_in; eassumption.
Qed.

Lemma insert_desc_class : forall x s r,
  insert_desc x s = Some r -> same_class s -> same_class (x :: s).
Proof.
  intros x [|y ys] r H Hs.
  - intros a b [<-|[]] [<-|[]]. reflexivity.
  - simpl in H. destruct (key_lt (timestamp_key y) (timestamp_key x)) as [c|] eqn:E;
      [|discriminate].
    apply key_lt_class in E.
    assert (Hy : forall w, In w (x :: y :: ys) ->
                 key_class (timestamp_key w) = key_class (timestamp_key y)).
    { intros w [Hw|Hw]; [subst w; congruence | apply Hs; [exact Hw | left; reflexivity]]. }
    intros a b Ha Hb. rewrite (Hy a Ha), (Hy b Hb). reflexivity.
Qed.

Lemma sort_desc_aux_class : forall l acc r,
  sort_desc_aux acc l = Some r -> same_class acc -> same_class (acc ++ l).
Proof.
  induction l as [|x l IH]; intros acc r H Hacc; simpl in H.
  - rewrite app_nil_r. exact Hacc.
  - destruct (insert_desc x acc) as [acc'|] eqn:Hi; [|discriminate].
    assert (Hc : same_class acc').
    { apply (same_class_perm acc' (x :: acc)); [symmetry; apply insert_desc_perm; exact Hi|].
      apply (insert_desc_class x acc acc' Hi Hacc). }
    apply (same_class_perm _ (acc' ++ l)); [|exact (IH acc' r H Hc)].
    eapply Permutation_trans; [symmetry; apply Permutation_middle|].
    change (x :: app acc l) with (app (x :: acc) l).
    apply Permutation_app_tail. apply insert_desc_perm. exact Hi.
Qed.

(** *** Theorems *)

(** Whatever the reply, [scrape_linkedin_posts] returns at most two
    posts, each a dict with exactly the keys text, timestamp, url, stats
    and post_type, whose text is non-empty and at most 500 characters (or
    items) long; this holds for any sort that returns a permutation of
    its input. *)
Theorem scrape_returns_at_most_two_shaped_posts : forall sort_posts response,
  (forall l l', sort_posts l = Some l' -> Permutation l l') ->
  List.length (scrape_linkedin_posts sort_posts response) <= 2 /\
  Forall scraped_post (scrape_linkedin_posts sort_posts response).
Proof.
  intros sort_posts response Hperm. unfold scrape_linkedin_posts.
  destruct response as [b|code body]; [split; [simpl; lia | constructor]|].
  destruct (Z.eqb code 200); [|split; [simpl; lia | constructor]].
  destruct body as [data|]; [|split; [simpl; lia | constructor]].
  destruct (valid_posts (posts_of_data data)) as [vp|] eqn:Hv; [|split; [simpl; lia | constructor]].
  destruct (sort_posts vp) as [sorted|] eqn:Hs; [|split; [simpl; lia | constructor]].
  split; [apply firstn_le_length|].
  apply Forall_firstn_any.
  apply (Permutation_Forall (Hperm _ _ Hs)).
  apply (valid_posts_shape _ _ Hv).
Qed.

Definition sample_posts_data : json :=
  JObj [("posts", JArr [JObj [("text", JStr "Excited to share our new AI product launch"); ("timestamp", JNum 1700000000)];
                        JObj [("content", JStr ""); ("timestamp", JNum 1700000500)];
                        JObj [("description", JStr "Hiring engineers"); ("timestamp", JNum 1700000900);
                              ("url", JStr "https://www.linkedin.com/feed/update/1")];
                        JObj [("text", JStr "Throwback"); ("timestamp", JNum 1600000000)]])].

Lemma scrape_returns_at_most_two_shaped_posts_witness :
  List.length (scrape_linkedin_posts sort_by_timestamp_desc (Reply 200 (Some sample_posts_data))) = 2 /\
  List.length (scrape_linkedin_posts sort_by_timestamp_desc (Reply 200 (Some sample_posts_data))) <= 2 /\
  Forall scraped_post (scrape_linkedin_posts sort_by_timestamp_desc (Reply 200 (Some sample_posts_data))).
Proof.
  split; [vm_compute; reflexivity|].
  exact (scrape_returns_at_most_two_shaped_posts sort_by_timestamp_desc _ sort_by_timestamp_desc_perm).
Defined.

(** Sorting by [x.get('timestamp', 0)] raises TypeError as soon as two of
    the valid posts have a string and a numeric timestamp (a string
    [published_at] beside a numeric [timestamp], say); the [except]
    clause then makes [scrape_linkedin_posts] return no post at all. *)
Theorem scrape_drops_all_posts_on_mixed_timestamps : forall data vp p q s z,
  valid_posts (posts_of_data data) = Some vp ->
  In p vp -> In q vp ->
  timestamp_key p = JStr s -> timestamp_key q = JNum z ->
  scrape_linkedin_posts sort_by_timestamp_desc (Reply 200 (Some data)) = [].
Proof.
  intros data vp p q s z Hv Hp Hq Hs Hz. unfold scrape_linkedin_posts.
  cbn [Z.eqb Pos.eqb]. rewrite Hv.
  destruct (sort_by_timestamp_desc vp) as [sorted|] eqn:E; [|reflexivity].
  exfalso. apply (sort_desc_aux_class vp []) in E; [|intros a b []].
  specialize (E p q Hp Hq). rewrite Hs, Hz in E. discriminate.
Qed.

Definition mixed_posts_data : json :=
  JObj [("posts", JArr [JObj [("text", JStr "Excited to share our new AI product launch"); ("timestamp", JNum 1700000000)];
                        JObj [("content", JStr "Hiring engineers"); ("published_at", JStr "2023-11-14T10:00:00")]])].

Lemma scrape_drops_all_posts_on_mixed_timestamps_witness :
  scrape_linkedin_posts sort_by_timestamp_desc (Reply 200 (Some mixed_posts_data)) = [].
Proof.
  apply (scrape_drops_all_posts_on_mixed_timestamps mixed_posts_data
           [JObj [("text", JStr "Excited to share our new AI product launch");
                  ("timestamp", JNum 1700000000); ("url", JStr ""); ("stats", JObj []);
                  ("post_type", JStr "regular")];
            JObj [("text", JStr "Hiring engineers"); ("timestamp", JStr "2023-11-14T10:00:00");
                  ("url", JStr ""); ("stats", JObj []); ("post_type", JStr "regular")]]
           (JObj [("text", JStr "Hiring engineers"); ("timestamp", JStr "2023-11-14T10:00:00");
                  ("url", JStr ""); ("stats", JObj []); ("post_type", JStr "regular")])
           (JObj [("text", JStr "Excited to share our new AI product launch");
                  ("timestamp", JNum 1700000000); ("url", JStr ""); ("stats", JObj []);
                  ("post_type", JStr "regular")])
           "2023-11-14T10:00:00" 1700000000);
    [vm_compute; reflexivity | right; left; reflexivity | left; reflexivity
    | reflexivity | reflexivity].
Defined.

End ScrapeFacts.

Module SenderInfoFacts.
Import SenderInfo.

Definition default_keys : list string :=
  ["name"; "current_role"; "current_company"; "expertise"; "industry";
   "key_achievements"; "professional_summary"].

Definition has_default_keys (si : list (string * json)) : Prop :=
  map fst si = default_keys.

Lemma dict_set_keys : forall k v kv,
  In k (map fst kv) -> map fst (dict_set k v kv) = map fst kv.
Proof.
  intros k v kv. induction kv as [|[k' v'] kv IH]; intros H; simpl in *; [contradiction|].
  destruct (String.eqb_spec k k') as [->|n]; simpl; [reflexivity|].
  rewrite IH; [reflexivity | destruct H; [congruence | exact H]].
Qed.

Lemma dict_set_default_keys : forall k v si,
  has_default_keys si -> In k default_keys -> has_default_keys (dict_set k v si).
Proof.
  intros k v si H Hk. unfold has_default_keys in *. rewrite dict_set_keys; [exact H|].
  rewrite H. exact Hk.
Qed.

Lemma assoc_dict_set : forall k v kv, assoc k (dict_set k v kv) = Some v.
Proof.
  intros k v kv. induction kv as [|[k' v'] kv IH]; simpl.
  - rewrite String.eqb_refl. reflexivity.
  - destruct (String.eqb k k') eqn:E; simpl; rewrite ?String.eqb_refl, ?E; [reflexivity | exact IH].
Qed.

Definition run_keys (r : run) : Prop := has_default_keys (final r).

Lemma and_then_keys : forall r k,
  run_keys r -> (forall si, has_default_keys si -> run_keys (k si)) ->
  run_keys (and_then r k).
Proof. intros [si|si] k H Hk; simpl; [apply Hk; exact H | exact H]. Qed.

Ltac keys_step :=
  repeat first
    [ progress cbn [final]
    | apply dict_set_default_keys; [| simpl; tauto]
    | assumption
    | match goal with
      | |- context [match ?x with _ => _ end] => destruct x
      | |- context [if ?x then _ else _] => destruct x
      end ].

Lemma name_block_keys : forall kv si, has_default_keys si -> run_keys (name_block kv si).
Proof. intros kv si H. unfold run_keys, name_block. keys_step. Qed.

Lemma headline_block_keys : forall kv si, has_default_keys si -> run_keys (headline_block kv si).
Proof. intros kv si H. unfold run_keys, headline_block. keys_step. Qed.

Lemma experience_block_keys : forall kv si, has_default_keys si -> run_keys (experience_block kv si).
Proof. intros kv si H. unfold run_keys, experience_block. keys_step. Qed.

Lemma about_block_keys : forall kv si, has_default_keys si -> run_keys (about_block kv si).
Proof. intros kv si H. unfold run_keys, about_block. keys_step. Qed.

Lemma skills_block_keys : forall kv si, has_default_keys si -> run_keys (skills_block kv si).
Proof. intros kv si H. unfold run_keys, skills_block. keys_step. Qed.

Lemma industry_loop_keys : forall text table si,
  has_default_keys si -> has_default_keys (industry_loop text table si).
Proof.
  intros text table. induction table as [|[industry keywords] rest IH]; intros si H; simpl;
    [exact H|].
  destruct (existsb _ keywords).
  - destruct (truthy _); [|apply IH]; apply dict_set_default_keys; [exact H | simpl; tauto | exact H | simpl; tauto].
  - destruct (truthy _); [exact H | apply IH; exact H].
Qed.

Lemma industry_block_keys : forall si, has_default_keys si -> run_keys (industry_block si).
Proof.
  intros si H. unfold run_keys, industry_block.
  destruct (profile_text si); cbn [final]; [exact (industry_loop_keys _ _ _ H) | exact H].
Qed.

Lemma expertise_block_keys : forall si, has_default_keys si -> run_keys (expertise_block si).
Proof. intros si H. unfold run_keys, expertise_block. keys_step. Qed.

(** *** Theorems *)

(** Whatever the Apify data, [extract_sender_info_from_apify_data]
    returns a dict with exactly the seven keys of its defaults, in their
    order: the blocks only overwrite these keys, and an exception keeps
    the dict as it was. *)
Theorem sender_info_has_default_keys : forall apify_data,
  exists kv, extract_sender_info_from_apify_data apify_data = JObj kv /\
             map fst kv = ["name"; "current_role"; "current_company"; "expertise"; "industry";
                           "key_achievements"; "professional_summary"].
Proof.
  intros apify_data. unfold extract_sender_info_from_apify_data.
  destruct apify_data as [| | | | |kv]; try (eexists; split; [reflexivity | reflexivity]).
  eexists. split; [reflexivity|].
  apply (and_then_keys _ _ (name_block_keys kv defaults eq_refl)). intros si1 H1.
  apply (and_then_keys _ _ (headline_block_keys kv si1 H1)). intros si2 H2.
  apply (and_then_keys _ _ (experience_block_keys kv si2 H2)). intros si3 H3.
  apply (and_then_keys _ _ (about_block_keys kv si3 H3)). intros si4 H4.
  apply (and_then_keys _ _ (skills_block_keys kv si4 H4)). intros si5 H5.
  apply (and_then_keys _ _ (industry_block_keys si5 H5)). intros si6 H6.
  apply expertise_block_keys. exact H6.
Qed.

(** A truthy headline that is a number is stored as [current_role];
    [' at ' in headline] then raises TypeError, which the [except] clause
    swallows. The sender info comes back with a numeric role, on which
    [analyze_and_generate_message] raises when it slices the role. *)
Theorem numeric_headline_breaks_message_generation : forall fuel prospect_data kv n response,
  assoc "basic_info" kv = None ->
  assoc "headline" kv = Some (JNum n) -> n <> 0%Z ->
  Messages.analyze_and_generate_message fuel prospect_data
    (extract_sender_info_from_apify_data (JObj kv)) response = Messages.Raise.
Proof.
  intros fuel pd kv n response Hb Hh Hn.
  assert (Hsi : exists f, extract_sender_info_from_apify_data (JObj kv)
                          = JObj (dict_set "current_role" (JNum n)
                                   (if truthy f then dict_set "name" f defaults else defaults))).
  { assert (Htr : truthy (JNum n) = true)
      by (cbn; destruct (Z.eqb_spec n 0); [contradiction | reflexivity]).
    exists (get_or kv "fullname" JNull).
    unfold extract_sender_info_from_apify_data, name_block, headline_block.
    unfold get_or, Scrape.get_or. rewrite Hb, Hh, Htr. cbn [truthy].
    set (F := match assoc "fullname" kv with Some v => v | None => JNull end).
    destruct (truthy F); reflexivity. }
  destruct Hsi as (f & ->).
  unfold Messages.analyze_and_generate_message.
  replace (Messages.sender_first_name _) with (@None string); [reflexivity|].
  symmetry. unfold Messages.sender_first_name.
  destruct (truthy f); simpl;
    try match goal with |- match ?m with _ => _ end = None => destruct m end; reflexivity.
Qed.

Lemma numeric_headline_breaks_message_generation_witness :
  Messages.analyze_and_generate_message 3 (JObj [("fullname", JStr "Grace Hopper")])
    (extract_sender_info_from_apify_data (JObj [("fullname", JStr "Ada Lovelace"); ("headline", JNum 42)]))
    (Preds.completion_reply "Option 1: Hi Grace") = Messages.Raise.
Proof.
  apply (numeric_headline_breaks_message_generation 3 _ _ 42); [reflexivity | reflexivity | lia].
Defined.

(** The industry keyword "AI" is lowercased and searched as a substring
    of the lowercased role and summary: any text containing the letters
    "ai" (a "Trainer", a "Retail" or "Maintenance" role) is classified as
    Technology, the first industry of the table. *)
Theorem industry_ai_substring_gives_technology : forall si r s,
  get_or si "current_role" (JStr "") = JStr r ->
  get_or si "professional_summary" (JStr "") = JStr s ->
  PyStr.contains "ai" (PyStr.lower (r ++ " " ++ s)) = true ->
  industry_block si = Ok (dict_set "industry" (JStr "Technology") si).
Proof.
  intros si r s Hr Hs Hai. unfold industry_block, profile_text.
  rewrite Hr, Hs. cbn [industry_loop industry_keywords].
  replace (existsb _ _) with true.
  2:{ symmetry. cbn [existsb]. change (PyStr.lower "AI") with "ai". rewrite Hai. rewrite !orb_true_r. reflexivity. }
  unfold get_or, Scrape.get_or. rewrite assoc_dict_set. reflexivity.
Qed.

Lemma industry_ai_substring_gives_technology_witness :
  industry_block (dict_set "current_role" (JStr "Sales Trainer") defaults)
  = Ok (dict_set "industry" (JStr "Technology") (dict_set "current_role" (JStr "Sales Trainer") defaults)) /\
  extract_sender_info_from_apify_data (JObj [("fullname", JStr "Sam Lee"); ("headline", JStr "Sales Trainer")])
  = JObj [("name", JStr "Sam Lee"); ("current_role", JStr "Sales Trainer"); ("current_company", JStr "");
          ("expertise", JStr "Sales Trainer"); ("industry", JStr "Technology");
          ("key_achievements", JStr ""); ("professional_summary", JStr "")].
Proof.
  split; [|vm_compute; reflexivity].
  apply (industry_ai_substring_gives_technology _ "Sales Trainer" ""); vm_compute; reflexivity.
Defined.

End SenderInfoFacts.

Module SessionFacts.
Import Session.

(** What the reachable states satisfy: the index points into a non-empty
    message list, and no entry is a string (entries are the dicts of a
    generation or the lists appended by a refinement). *)
Definition inv (s : state) : Prop :=
  (generated_messages s <> [] ->
   (0 <= current_message_index s < len (generated_messages s))%Z) /\
  Forall (fun e => forall t, e <> JStr t) (generated_messages s).

Lemma len_app_one : forall l x, len (app l [x]) = (len l + 1)%Z.
Proof. intros l x. unfold len. rewrite length_app. simpl. lia. Qed.

Lemma entries_from_not_str : forall i msgs,
  Forall (fun e => forall t, e <> JStr t) (entries_from i msgs).
Proof.
  intros i msgs. revert i. induction msgs as [|m ms IH]; intros i; simpl; constructor;
    [intros t; discriminate | apply IH].
Qed.

Lemma len_entries_from : forall i msgs, len (entries_from i msgs) = len (List.map JStr msgs).
Proof.
  intros i msgs. unfold len. f_equal. revert i.
  induction msgs as [|m ms IH]; intros i; simpl; [reflexivity | rewrite IH; reflexivity].
Qed.

Lemma len_nonneg : forall l, (0 <= len l)%Z.
Proof. intros l. unfold len. lia. Qed.

Lemma len_pos : forall l : list json, l <> [] -> (0 < len l)%Z.
Proof. intros [|x l] H; [congruence | unfold len; simpl; lia]. Qed.

Lemma step_inv : forall s e, inv s -> inv (step s e).
Proof.
  intros [gm idx rm] e [Hidx Hstr]. simpl in *.
  destruct e as [|[[|m ms]|]| | | |[[|m ms]|]|]; unfold inv; simpl.
  - split; [congruence | constructor].
  - split; [congruence | constructor].
  - split; [intros _; unfold len; simpl; lia | exact (entries_from_not_str 0 (m :: ms))].
  - split; [congruence | constructor].
  - destruct (0 <? len gm)%Z; simpl; auto.
  - destruct (0 <? len gm)%Z eqn:E1, (idx <=? 0)%Z eqn:E2; simpl; auto.
    apply Z.ltb_lt in E1. apply Z.leb_gt in E2.
    split; [intros H; specialize (Hidx H); lia | exact Hstr].
  - destruct (0 <? len gm)%Z eqn:E1, (len gm - 1 <=? idx)%Z eqn:E2; simpl; auto.
    apply Z.ltb_lt in E1. apply Z.leb_gt in E2.
    split; [intros H; specialize (Hidx H); lia | exact Hstr].
  - destruct ((0 <? len gm)%Z && rm); simpl; auto.
  - destruct ((0 <? len gm)%Z && rm); simpl; [|auto].
    split.
    + intros _. rewrite len_app_one. pose proof (len_nonneg gm). lia.
    + apply Forall_app. split; [exact Hstr | constructor; [intros t; discriminate | constructor]].
  - destruct ((0 <? len gm)%Z && rm); simpl; auto.
  - destruct ((0 <? len gm)%Z && rm); simpl; auto.
Qed.

Lemma run_inv : forall events, inv (replay events).
Proof.
  intros events. unfold replay.
  assert (H : forall s, inv s -> inv (fold_left step events s)).
  { induction events as [|e es IH]; intros s Hs; simpl; [exact Hs | apply IH, step_inv, Hs]. }
  apply H. split; [intros Hne; exfalso; apply Hne; reflexivity | constructor].
Qed.

Lemma history_loop_not_str : forall gm,
  gm <> [] -> Forall (fun e => forall t, e <> JStr t) gm -> history_loop gm = None.
Proof.
  intros [|e gm] H Hs; [congruence|]. inversion Hs as [|x l He _]; subst.
  destruct e as [| | |t| |]; simpl; try reflexivity. exfalso. apply (He t). reflexivity.
Qed.

(** *** Theorems *)

(** After any sequence of clicks, [generated_messages[current_message_index]]
    does not raise IndexError when there are messages: Generate sets the
    index to 0, Previous and Next are disabled at the ends, and a
    refinement points at the entry it appends. *)
Theorem current_index_in_range : forall events,
  generated_messages (replay events) <> [] ->
  exists d, py_index (generated_messages (replay events)) (current_message_index (replay events)) = Some d.
Proof.
  intros events H. destruct (run_inv events) as [Hidx _].
  specialize (Hidx H). unfold py_index.
  replace (0 <=? current_message_index (replay events))%Z with true
    by (symmetry; apply Z.leb_le; lia).
  destruct (nth_error _ _) as [d|] eqn:E; [exists d; reflexivity|].
  apply nth_error_None in E. unfold len in Hidx. lia.
Qed.

Lemma current_index_in_range_witness :
  exists d, py_index (generated_messages (replay [GenerateClicked (Some ["a"; "b"; "c"]); NextClicked; NextClicked; NextClicked]))
                     (current_message_index (replay [GenerateClicked (Some ["a"; "b"; "c"]); NextClicked; NextClicked; NextClicked]))
            = Some d.
Proof. apply current_index_in_range. discriminate. Defined.

(** As soon as two entries are stored (after every generation of more
    than one message), rendering the message tab raises: the history loop
    calls [msg.split('\n')] on entries that are dicts or lists. *)
Theorem history_raises_with_two_entries : forall events,
  (2 <= List.length (generated_messages (replay events)))%nat ->
  render_messages (replay events) = None.
Proof.
  intros events H. destruct (run_inv events) as [_ Hstr].
  unfold render_messages.
  replace (0 <? len (generated_messages (replay events)))%Z with true
    by (symmetry; apply Z.ltb_lt; unfold len; lia).
  destruct (render_current (replay events)); [|reflexivity].
  replace (1 <? len (generated_messages (replay events)))%Z with true
    by (symmetry; apply Z.ltb_lt; unfold len; lia).
  apply history_loop_not_str; [|exact Hstr].
  intros E. rewrite E in H. simpl in H. lia.
Qed.

Lemma history_raises_with_two_entries_witness :
  (2 <= List.length (generated_messages (replay [ProspectAnalyzed; GenerateClicked (Some ["Hi Ada"; "Hello Ada"; "Dear Ada"])])))%nat /\
  render_messages (replay [ProspectAnalyzed; GenerateClicked (Some ["Hi Ada"; "Hello Ada"; "Dear Ada"])]) = None.
Proof.
  split; [simpl; lia|].
  apply history_raises_with_two_entries. simpl. lia.
Defined.

(** A successful refinement appends the list [refined_message] itself
    and points the index at it; displaying it then raises TypeError at
    [current_msg_data["text"]]. *)
Theorem refined_entry_cannot_be_displayed : forall s refined_message,
  regenerate_mode s = true -> generated_messages s <> [] -> refined_message <> [] ->
  render_current (step s (RefineSubmitted (Some refined_message))) = None.
Proof.
  intros [gm idx rm] l Hrm Hgm Hl. simpl in *. subst rm.
  replace (0 <? len gm)%Z with true by (symmetry; apply Z.ltb_lt, len_pos, Hgm).
  destruct l as [|m ms]; [congruence|]. simpl andb. cbv iota.
  unfold render_current, py_index. cbn [generated_messages current_message_index].
  rewrite len_app_one.
  replace (0 <=? len gm + 1 - 1)%Z with true by (symmetry; apply Z.leb_le; pose proof (len_nonneg gm); lia).
  replace (Z.to_nat (len gm + 1 - 1)) with (List.length gm) by (unfold len; lia).
  rewrite nth_error_app2, Nat.sub_diag by lia. reflexivity.
Qed.

Lemma refined_entry_cannot_be_displayed_witness :
  render_current (step (replay [GenerateClicked (Some ["Hi Ada"]); RefineClicked])
                       (RefineSubmitted (Some ["Hi Ada, shorter"]))) = None.
Proof.
  apply refined_entry_cannot_be_displayed; [reflexivity | discriminate | discriminate].
Defined.

End SessionFacts.
